(** * check_tracking.py: tracking-only versus transclusion use of Wikidata templates

    A shallow embedding of [src/check_tracking.py] and the properties of
    its name normalisation, its per-family predicates, its scan loop over
    a dump and its report.

    Conventions of the embedding.
    - A Python [str] is a [string]; a character is a code point below 256,
      so [isspace] and [lower_char] are Python's on that range.
    - A Python [int] is a [Z].
    - A Python [dict] is an association list in insertion order with
      unique keys ([dict_get], [dict_set]); a Python [set] of strings is a
      [gset string].
    - An exception is a constructor of [exn]; an expression that can raise
      evaluates to a [result], a statement of [main] to a [run], which
      keeps the state reached when the exception left [main].
    - The third-party calls ([session.get], the dump reader, the wikitext
      parser) are the inputs of the model. *)

From Stdlib Require Import ZArith Ascii String List Bool Lia DecimalString.
From stdpp Require Import base gmap strings list.
Import ListNotations.

Local Open Scope string_scope.
Local Open Scope Z_scope.

(** ** Python strings *)

Module Str.

Definition code (c : ascii) : N := N_of_ascii c.

Definition between (lo hi : N) (c : ascii) : bool :=
  (N.leb lo (code c) && N.leb (code c) hi)%bool.

(** [str.isspace] on one character (code points below 256). *)
Definition isspace (c : ascii) : bool :=
  (between 9 13 c || between 28 32 c
   || N.eqb (code c) 133 || N.eqb (code c) 160)%bool.

(** [str.lower] on one character (code points below 256): A-Z and the
    Latin-1 capitals other than the multiplication sign. *)
Definition lower_char (c : ascii) : ascii :=
  if (between 65 90 c
      || (between 192 222 c && negb (N.eqb (code c) 215)))%bool
  then ascii_of_N (code c + 32) else c.

Fixpoint map (f : ascii -> ascii) (s : string) : string :=
  match s with
  | EmptyString => EmptyString
  | String c s' => String (f c) (map f s')
  end.

(** [s.lower()], on the code points below 256, where it maps one
    character to one.  Above them Python's [lower] can change the length
    of a string (U+0130 becomes two code points): lengths of lowered
    strings are therefore not spoken of. *)
Definition lower (s : string) : string := map lower_char s.

(** Removal of the leading, and of the trailing, characters in the class
    [sp]. *)
Fixpoint lstrip_by (sp : ascii -> bool) (s : string) : string :=
  match s with
  | EmptyString => EmptyString
  | String c s' => if sp c then lstrip_by sp s' else s
  end.

Fixpoint rstrip_by (sp : ascii -> bool) (s : string) : string :=
  match s with
  | EmptyString => EmptyString
  | String c s' =>
      match rstrip_by sp s' with
      | EmptyString => if sp c then EmptyString else String c EmptyString
      | r => String c r
      end
  end.

Definition strip_by (sp : ascii -> bool) (s : string) : string :=
  rstrip_by sp (lstrip_by sp s).

(** [s.strip()] *)
Definition strip (s : string) : string := strip_by isspace s.

Fixpoint drop (n : nat) (s : string) : string :=
  match n, s with
  | O, _ => s
  | S _, EmptyString => EmptyString
  | S n', String _ s' => drop n' s'
  end.

(** [s.replace(old, new)] for a non-empty [old]: occurrences are taken
    from the left and do not overlap.  [skip] counts the characters of
    the occurrence just replaced that are still to be passed over. *)
Fixpoint replace_from (skip : nat) (old new s : string) : string :=
  match s with
  | EmptyString => EmptyString
  | String c s' =>
      match skip with
      | S k => replace_from k old new s'
      | O =>
          if String.prefix old s
          then new +:+ replace_from (Nat.pred (String.length old)) old new s'
          else String c (replace_from O old new s')
      end
  end.

Definition replace (old new s : string) : string := replace_from O old new s.

(** [s.find(c)] for a one-character [c]: the least index, or -1. *)
Fixpoint find (c : ascii) (s : string) : Z :=
  match s with
  | EmptyString => -1
  | String d s' =>
      if Ascii.eqb d c then 0
      else match find c s' with
           | Zneg _ => -1
           | k => k + 1
           end
  end.

(** [s[k:]]: a negative [k] counts from the end, and both ends clamp. *)
Definition slice_from (k : Z) (s : string) : string :=
  let n := Z.of_nat (String.length s) in
  let start := if k <? 0 then Z.max 0 (n + k) else k in
  drop (Z.to_nat start) s.

(** [sub in s] *)
Fixpoint contains (sub s : string) : bool :=
  if String.prefix sub s then true
  else match s with
       | EmptyString => false
       | String _ s' => contains sub s'
       end.

(** ['{0}'.format(n)] for an [int] *)
Definition of_int (n : Z) : string := NilZero.string_of_int (Z.to_int n).

Definition TAB : string := String (ascii_of_nat 9) EmptyString.
Definition NL : string := String (ascii_of_nat 10) EmptyString.

End Str.

(** ** Normalisation of template names (lines 9-11) *)

Definition standardize_template_names (t : string) : string :=
  Str.replace " " "_" (Str.lower (Str.strip t)).

(** ** Exceptions and results *)

Inductive exn : Set :=
  | ValueError
  | KeyError
  | IndexError
  | TypeError
  | ZeroDivisionError
  | UnboundLocalError.

Inductive result (A : Type) : Type :=
  | Ok (a : A)
  | Raise (e : exn).
Arguments Ok {A} a.
Arguments Raise {A} e.

#[global] Instance result_ret : MRet result := fun _ a => Ok a.
#[global] Instance result_bind : MBind result :=
  fun _ _ k r => match r with Ok a => k a | Raise e => Raise e end.

(** [try: body  except caught: handler] *)
Definition try_except {A} (body : result A) (caught : exn -> bool)
    (handler : result A) : result A :=
  match body with
  | Ok a => Ok a
  | Raise e => if caught e then handler else Raise e
  end.

Definition is_ValueError (e : exn) : bool :=
  match e with ValueError => true | _ => false end.

(** [l[k]] on a list, for an index that is not negative. *)
Definition list_getitem {A} (l : list A) (k : nat) : result A :=
  match l !! k with
  | Some a => Ok a
  | None => Raise IndexError
  end.

(** Reading a local variable that may not be bound yet. *)
Definition local {A} (v : option A) : result A :=
  match v with
  | Some a => Ok a
  | None => Raise UnboundLocalError
  end.

(** ** [float(s)] for a string [s]

    Only whether the conversion succeeds matters to the program: the
    number is thrown away.  The accepted strings are those of the
    language reference: surrounding whitespace, an optional sign, then a
    decimal number with an optional exponent (underscores allowed between
    digits), or one of [inf], [infinity], [nan] in any letter case. *)

Module Float.

Definition isdigit (c : ascii) : bool := Str.between 48 57 c.

(** The whitespace [float] removes: the C-locale blanks and, above
    ASCII, the two Latin-1 spaces. *)
Definition isspace (c : ascii) : bool :=
  (Str.between 9 13 c || N.eqb (Str.code c) 32
   || N.eqb (Str.code c) 133 || N.eqb (Str.code c) 160)%bool.

Definition is_char (d c : ascii) : bool := Ascii.eqb c d.

(** What follows a digit inside a [digitpart]: digits, each possibly
    preceded by one underscore.  Returns the text after the digitpart. *)
Fixpoint digits_rest (s : string) : string :=
  match s with
  | EmptyString => EmptyString
  | String c s' =>
      if isdigit c then digits_rest s'
      else if is_char "_" c then
        match s' with
        | String d s'' => if isdigit d then digits_rest s'' else s
        | EmptyString => s
        end
      else s
  end.

(** [digitpart ::= digit (["_"] digit)*]; [None] when [s] does not start
    with one. *)
Definition digitpart (s : string) : option string :=
  match s with
  | String c s' => if isdigit c then Some (digits_rest s') else None
  | EmptyString => None
  end.

Definition skip_sign (s : string) : string :=
  match s with
  | String c s' => if (is_char "+" c || is_char "-" c)%bool then s' else s
  | EmptyString => s
  end.

(** [number ::= [digitpart] "." digitpart | digitpart ["."]] *)
Definition number (s : string) : option string :=
  match digitpart s with
  | Some r =>
      match r with
      | String c r' =>
          if is_char "." c
          then match digitpart r' with
               | Some r'' => Some r''
               | None => Some r'
               end
          else Some r
      | EmptyString => Some r
      end
  | None =>
      match s with
      | String c r' => if is_char "." c then digitpart r' else None
      | EmptyString => None
      end
  end.

(** [exponent ::= ("e" | "E") [sign] digitpart] *)
Definition exponent (s : string) : option string :=
  match s with
  | String c s' =>
      if (is_char "e" c || is_char "E" c)%bool
      then digitpart (skip_sign s') else None
  | EmptyString => None
  end.

Definition floatnumber (s : string) : bool :=
  match number s with
  | Some EmptyString => true
  | Some r =>
      match exponent r with
      | Some EmptyString => true
      | _ => false
      end
  | None => false
  end.

Definition special (s : string) : bool :=
  let l := Str.lower s in
  (String.eqb l "inf" || String.eqb l "infinity" || String.eqb l "nan")%bool.

Definition accepts (s : string) : bool :=
  let body := skip_sign (Str.strip_by isspace s) in
  (floatnumber body || special body)%bool.

End Float.

Definition py_float (s : string) : result unit :=
  if Float.accepts s then Ok tt else Raise ValueError.

(** ** Parsed wikitext (mwparserfromhell) and dump pages (mwxml) *)

(** A parameter of an invocation (the parser's [Parameter]): its name,
    which is its position for an unnamed one, and its value, as text. *)
Module Param.
Record t : Set := mk { name : string; value : string }.
End Param.

(** An invocation: the text of its name and its parameters in order. *)
Module Template.
Record t : Set := mk { name : string; params : list Param.t }.
End Template.

(** A revision with its text, if any, and a page with its namespace,
    the title it redirects to, if any, and its revisions. *)
Module Revision.
Record t : Set := mk { text : option string }.
End Revision.

Module Page.
Record t : Set :=
  mk { namespace : Z; redirect : option string; revisions : list Revision.t }.
End Page.

(** Truth value of a list, of an optional string and of an [int]. *)
Definition truthy_list {A} (l : list A) : bool :=
  match l with [] => false | _ :: _ => true end.

Definition truthy_opt_str (o : option string) : bool :=
  match o with
  | None => false
  | Some s => negb (String.eqb s "")
  end.

Definition truthy_int (n : Z) : bool := negb (n =? 0).

(** ** The predicates of the families (lines 24-63) *)

Definition standardize_template_param_name (param : Param.t) : string :=
  Str.lower (Str.strip (Param.name param)).

(** The [for] loop of [coord] over the parameters still to visit. *)
Fixpoint coord_loop (ps : list Param.t) : result bool :=
  match ps with
  | [] => Ok false
  | p :: ps' =>
      r ← try_except
            (_ ← py_float (Param.value p); Ok (Some true))
            is_ValueError
            (if (Str.contains "latitude=" (Param.name p)
                 || Str.contains "dd=" (Param.name p))%bool
             then Ok (Some true) else Ok None);
      match r with
      | Some b => Ok b
      | None => coord_loop ps'
      end
  end.

Definition coord (template : Template.t) : result bool :=
  coord_loop (Template.params template).

(** [ac] and [tb] differ in the name they accept only. *)
Definition sole_override (key : string) (template : Template.t) : result bool :=
  let params := Template.params template in
  if truthy_list params then
    if (1 <? Z.of_nat (length params)) then Ok true
    else
      p0 ← list_getitem params 0;
      if negb (String.eqb (standardize_template_param_name p0) key)
      then Ok true else Ok false
  else Ok false.

Definition ac (template : Template.t) : result bool :=
  sole_override "qid" template.

Definition tb (template : Template.t) : result bool :=
  sole_override "from" template.

Definition bda (template : Template.t) : result bool := Ok true.

Definition el (template : Template.t) : result bool :=
  let params := Template.params template in
  if truthy_list params then
    if (Z.of_nat (length params) =? 1) then
      p0 ← list_getitem params 0;
      if String.eqb (standardize_template_param_name p0) "name"
      then Ok false else Ok true
    else Ok true
  else Ok false.

(** ** Dictionaries *)

Abbreviation dict V := (list (string * V)).

Fixpoint dict_get {V} (k : string) (d : dict V) : option V :=
  match d with
  | [] => None
  | (k', v) :: d' => if String.eqb k' k then Some v else dict_get k d'
  end.

(** [d[k] = v]: in place for a key already there, at the end otherwise. *)
Fixpoint dict_set {V} (k : string) (v : V) (d : dict V) : dict V :=
  match d with
  | [] => [(k, v)]
  | (k', v') :: d' =>
      if String.eqb k' k then (k, v) :: d' else (k', v') :: dict_set k v d'
  end.

Definition dict_keys {V} (d : dict V) : list string := List.map fst d.

(** [d[k]] *)
Definition dict_getitem {V} (k : string) (d : dict V) : result V :=
  match dict_get k d with
  | Some v => Ok v
  | None => Raise KeyError
  end.

(** ** The state of [main] *)

(** One value of [wikidata_usage]: [{'tracking': _, 'transclusion': _}]. *)
Record usage : Set := mkUsage { tracking : Z; transclusion : Z }.

(** [sum(wikidata_usage[w].values())] *)
Definition usage_sum (u : usage) : Z := tracking u + transclusion u.

(** A quotient [a / b] of two [int]s: the program only prints it, rounded
    to one decimal, so the model keeps the two operands. *)
Record ratio : Set := mkRatio { numer : Z; denom : Z }.

Definition truediv (a b : Z) : result ratio :=
  if b =? 0 then Raise ZeroDivisionError else Ok (mkRatio a b).

(** The lines sent to standard output, by their format arguments. *)
Inductive status_line : Set :=
  | Share (w : string) (n : Z) (pct : ratio)
  | NoShare (w : string) (n : Z).

Inductive printed : Set :=
  | NamesLine (t : string) (n : Z)
  | StatsLine (i evaluated prob : Z) (prob_pct : ratio)
              (actual : Z) (actual_pct : ratio) (status : list status_line).

Module Var.
Record t : Type := mk {
  wikidata_usage : dict usage;
  template_names : dict (gset string);
  evaluated : Z;
  prob_wbc : Z;
  actual_wbc : Z;
  i : option Z;
  wbc : option bool;
  tracking_only : option bool;
  status : list status_line;
  stdout : list printed;
  fout : option string
}.
End Var.

Abbreviation state := Var.t.

Definition set_wikidata_usage (v : dict usage) (s : state) : state :=
  Var.mk v (Var.template_names s) (Var.evaluated s) (Var.prob_wbc s)
    (Var.actual_wbc s) (Var.i s) (Var.wbc s) (Var.tracking_only s)
    (Var.status s) (Var.stdout s) (Var.fout s).
Definition set_template_names (v : dict (gset string)) (s : state) : state :=
  Var.mk (Var.wikidata_usage s) v (Var.evaluated s) (Var.prob_wbc s)
    (Var.actual_wbc s) (Var.i s) (Var.wbc s) (Var.tracking_only s)
    (Var.status s) (Var.stdout s) (Var.fout s).
Definition set_evaluated (v : Z) (s : state) : state :=
  Var.mk (Var.wikidata_usage s) (Var.template_names s) v (Var.prob_wbc s)
    (Var.actual_wbc s) (Var.i s) (Var.wbc s) (Var.tracking_only s)
    (Var.status s) (Var.stdout s) (Var.fout s).
Definition set_prob_wbc (v : Z) (s : state) : state :=
  Var.mk (Var.wikidata_usage s) (Var.template_names s) (Var.evaluated s) v
    (Var.actual_wbc s) (Var.i s) (Var.wbc s) (Var.tracking_only s)
    (Var.status s) (Var.stdout s) (Var.fout s).
Definition set_actual_wbc (v : Z) (s : state) : state :=
  Var.mk (Var.wikidata_usage s) (Var.template_names s) (Var.evaluated s)
    (Var.prob_wbc s) v (Var.i s) (Var.wbc s) (Var.tracking_only s)
    (Var.status s) (Var.stdout s) (Var.fout s).
Definition set_i (v : option Z) (s : state) : state :=
  Var.mk (Var.wikidata_usage s) (Var.template_names s) (Var.evaluated s)
    (Var.prob_wbc s) (Var.actual_wbc s) v (Var.wbc s) (Var.tracking_only s)
    (Var.status s) (Var.stdout s) (Var.fout s).
Definition set_wbc (v : option bool) (s : state) : state :=
  Var.mk (Var.wikidata_usage s) (Var.template_names s) (Var.evaluated s)
    (Var.prob_wbc s) (Var.actual_wbc s) (Var.i s) v (Var.tracking_only s)
    (Var.status s) (Var.stdout s) (Var.fout s).
Definition set_tracking_only (v : option bool) (s : state) : state :=
  Var.mk (Var.wikidata_usage s) (Var.template_names s) (Var.evaluated s)
    (Var.prob_wbc s) (Var.actual_wbc s) (Var.i s) (Var.wbc s) v
    (Var.status s) (Var.stdout s) (Var.fout s).
Definition set_status (v : list status_line) (s : state) : state :=
  Var.mk (Var.wikidata_usage s) (Var.template_names s) (Var.evaluated s)
    (Var.prob_wbc s) (Var.actual_wbc s) (Var.i s) (Var.wbc s)
    (Var.tracking_only s) v (Var.stdout s) (Var.fout s).
Definition set_stdout (v : list printed) (s : state) : state :=
  Var.mk (Var.wikidata_usage s) (Var.template_names s) (Var.evaluated s)
    (Var.prob_wbc s) (Var.actual_wbc s) (Var.i s) (Var.wbc s)
    (Var.tracking_only s) (Var.status s) v (Var.fout s).
Definition set_fout (v : option string) (s : state) : state :=
  Var.mk (Var.wikidata_usage s) (Var.template_names s) (Var.evaluated s)
    (Var.prob_wbc s) (Var.actual_wbc s) (Var.i s) (Var.wbc s)
    (Var.tracking_only s) (Var.status s) (Var.stdout s) v.

(** Nothing bound, nothing printed, no output file. *)
Definition initial : state :=
  Var.mk [] [] 0 0 0 None None None [] [] None.

(** [print(line)] *)
Definition print (line : printed) (s : state) : state :=
  set_stdout (Var.stdout s ++ [line])%list s.

(** [fout.write(txt)] on the open output file. *)
Definition write (txt : string) (s : state) : state :=
  set_fout (Some (default "" (Var.fout s) +:+ txt)) s.

(** ** Statements *)

Inductive run : Type :=
  | Done (s : state)
  | Abort (e : exn) (s : state).

Definition final (r : run) : state :=
  match r with Done s => s | Abort _ s => s end.

Definition and_then (r : run) (k : state -> run) : run :=
  match r with
  | Done s => k s
  | Abort e s => Abort e s
  end.

Notation "r >>> k" := (and_then r k) (at level 61, left associativity).

(** Evaluation of an expression in state [s]: its exception leaves
    [main] there. *)
Definition eval {A} (e : result A) (s : state) (k : A -> run) : run :=
  match e with
  | Ok a => k a
  | Raise x => Abort x s
  end.

(** [for x in l: body] *)
Fixpoint for_each {A} (l : list A) (body : A -> state -> run) (s : state) : run :=
  match l with
  | [] => Done s
  | x :: l' => body x s >>> for_each l' body
  end.

(** [enumerate(l, start=k)] *)
Fixpoint enumerate {A} (k : Z) (l : list A) : list (Z * A) :=
  match l with
  | [] => []
  | x :: l' => (k, x) :: enumerate (k + 1) l'
  end.

(** ** The program (lines 13-22 and 65-164) *)

(** One page of an API answer: its title and, when it has any, the
    titles of its redirects ([result['query']['pages'][0]]). *)
Record api_page : Set := mkApiPage { title : string; redirects : option (list string) }.

(** One value of [main_templates]: [{'en': [...], 'func': f}]. *)
Record family : Type := mkFamily { en : list string; func : Template.t -> result bool }.

Section Program.

(** [session.get] of the redirects query, by language and title. *)
Variable session_get : string -> string -> api_page.
(** [result['query']['categorymembers']] titles, by language and category. *)
Variable categorymembers : string -> string -> list string.
(** [mwparserfromhell.parse(text).filter_templates()] *)
Variable filter_templates : option string -> list Template.t.

Definition build_template_list (lang main : string) : gset string :=
  let result := session_get lang main in
  fold_left
    (fun template_names t =>
       let name_start := Str.find ":" t + 1 in
       template_names
         ∪ {[ standardize_template_names (Str.slice_from name_start t) ]})
    (title result :: default [] (redirects result))
    ∅.

Definition get_templates_in_category (lang category_name : string) : list string :=
  fold_left (fun template_names t => (template_names ++ [t])%list)
    (categorymembers lang category_name) [].

Definition main_templates : dict family :=
  [ ("cd", mkFamily ["Template:Coord"] coord);
    ("ac", mkFamily ["Template:Authority control"] ac);
    ("tb", mkFamily ["Template:Taxonbar"] tb);
    ("bd", mkFamily ["Template:Birth_date"; "Template:Birth_date_and_age";
                     "Template:Birth_year_and_age"; "Template:Birth-date";
                     "Template:Birth-date_and_age"] bda);
    ("el", mkFamily
             (get_templates_in_category "en"
                "Category:External_link_templates_using_Wikidata") el) ].

(** [main_templates[t][lang]], as the iterable of a [for]. *)
Definition seeds (fam : family) (lang : string) : result (list string) :=
  if String.eqb lang "en" then Ok (en fam)
  else if String.eqb lang "func" then Raise TypeError
  else Raise KeyError.

(** Lines 100-109. *)
Definition setup_family (lang t : string) (s : state) : run :=
  let s := set_wikidata_usage
             (dict_set t (mkUsage 0 0) (Var.wikidata_usage s)) s in
  let s := set_template_names (dict_set t ∅ (Var.template_names s)) s in
  eval (dict_getitem t main_templates
          ≫= (fun fam : family => seeds fam lang)) s (fun names : list string =>
  for_each names (fun t_name s =>
    eval (dict_getitem t (Var.template_names s)) s (fun known : gset string =>
    Done (set_template_names
            (dict_set t (known ∪ build_template_list lang t_name)
               (Var.template_names s)) s))) s).

Definition print_names (t : string) (s : state) : run :=
  eval (dict_getitem t (Var.template_names s)) s (fun known : gset string =>
  Done (print (NamesLine t (Z.of_nat (size known))) s)).

Definition setup (lang : string) (s : state) : run :=
  let s := set_template_names [] (set_wikidata_usage [] s) in
  for_each (dict_keys main_templates) (setup_family lang) s
  >>> (fun s => for_each (dict_keys (Var.template_names s)) print_names s).

(** Lines 125-133: one invocation against one family. *)
Definition check_family (t : Template.t) (t_name t_check : string) (s : state) : run :=
  eval (dict_getitem t_check (Var.template_names s)) s (fun known : gset string =>
  if bool_decide (t_name ∈ known) then
    eval (dict_getitem t_check main_templates
            ≫= (fun fam : family => func fam t)) s
      (fun tracking_p : bool =>
    eval (dict_getitem t_check (Var.wikidata_usage s)) s (fun u : usage =>
    if tracking_p then
      let u' := mkUsage (tracking u + 1) (transclusion u) in
      Done (set_wbc (Some true)
              (set_wikidata_usage
                 (dict_set t_check u' (Var.wikidata_usage s)) s))
    else
      let u' := mkUsage (tracking u) (transclusion u + 1) in
      Done (set_tracking_only (Some false)
              (set_wbc (Some true)
                 (set_wikidata_usage
                    (dict_set t_check u' (Var.wikidata_usage s)) s)))))
  else Done s).

(** Lines 123-133. *)
Definition check_template (t : Template.t) (s : state) : run :=
  let t_name := standardize_template_names (Template.name t) in
  for_each (dict_keys (Var.template_names s)) (check_family t t_name) s.

(** Lines 119-137. *)
Definition scan_revision (revision : Revision.t) (s : state) : run :=
  let templates := filter_templates (Revision.text revision) in
  let s := set_tracking_only (Some true) (set_wbc (Some false) s) in
  for_each templates check_template s
  >>> (fun s =>
  eval (local (Var.wbc s)) s (fun wbc =>
  if wbc then
    let s := set_prob_wbc (Var.prob_wbc s + 1) s in
    eval (local (Var.tracking_only s)) s (fun tracking_only =>
    if negb tracking_only
    then Done (set_actual_wbc (Var.actual_wbc s + 1) s)
    else Done s)
  else Done s)).

(** Lines 140-145 and 154-159: one entry of [status]. *)
Definition status_entry (w : string) (s : state) : run :=
  eval (dict_getitem w (Var.wikidata_usage s)) s (fun u : usage =>
  let n := usage_sum u in
  if truthy_int n then
    eval (truediv (transclusion u * 100) n) s (fun pct =>
    Done (set_status (Var.status s ++ [Share w n pct])%list s))
  else Done (set_status (Var.status s ++ [NoShare w n])%list s)).

(** Lines 146-147 and 161-164: the arguments of [format] are evaluated
    from the left, then the line is printed. *)
Definition print_stats (s : state) : run :=
  eval (local (Var.i s)) s (fun i =>
  eval (truediv (Var.prob_wbc s * 100) (Var.evaluated s)) s (fun prob_pct =>
  eval (truediv (100 * Var.actual_wbc s) (Var.evaluated s)) s (fun actual_pct =>
  Done (print (StatsLine i (Var.evaluated s) (Var.prob_wbc s) prob_pct
                 (Var.actual_wbc s) actual_pct (Var.status s)) s)))).

(** Lines 138-147. *)
Definition progress (i : Z) (s : state) : run :=
  if i mod 10000 =? 0 then
    let s := set_status [] s in
    for_each (dict_keys (Var.wikidata_usage s)) status_entry s >>> print_stats
  else Done s.

(** Lines 116-147: the body of the loop over the dump. *)
Definition scan_page (ip : Z * Page.t) (s : state) : run :=
  let '(i, page) := ip in
  let s := set_i (Some i) s in
  (if ((Page.namespace page =? 0) && negb (truthy_opt_str (Page.redirect page)))%bool
   then
     let s := set_evaluated (Var.evaluated s + 1) s in
     for_each (Page.revisions page) scan_revision s
   else Done s)
  >>> progress i.

(** Lines 110-147. *)
Definition scan (dump : list Page.t) (s : state) : run :=
  let s := set_actual_wbc 0 (set_prob_wbc 0 (set_evaluated 0 s)) in
  for_each (enumerate 1 dump) scan_page s.

(** Line 160: the row of one family. *)
Definition report_row (w : string) (s : state) : run :=
  status_entry w s >>> (fun s =>
  eval (dict_getitem w (Var.wikidata_usage s)) s (fun u : usage =>
  Done (write (w +:+ Str.TAB +:+ Str.of_int (transclusion u) +:+ Str.TAB
                 +:+ Str.of_int (tracking u) +:+ Str.NL) s))).

(** Lines 148-164. *)
Definition report (s : state) : run :=
  let s := set_status [] s in
  let s := set_fout (Some "") s in
  let s := write ("type" +:+ Str.TAB +:+ "transclusion" +:+ Str.TAB
                    +:+ "tracking" +:+ Str.NL) s in
  let s := write ("total:" +:+ Str.of_int (Var.evaluated s) +:+ Str.TAB
                    +:+ Str.TAB +:+ Str.NL) s in
  let s := write ("wbc_estimate" +:+ Str.TAB +:+ Str.of_int (Var.actual_wbc s)
                    +:+ Str.TAB
                    +:+ Str.of_int (Var.prob_wbc s - Var.actual_wbc s)
                    +:+ Str.NL) s in
  for_each (dict_keys (Var.wikidata_usage s)) report_row s >>> print_stats.

(** Lines 80-164, for the language [lang] of the command line and the
    pages [dump] of the dump file. *)
Definition main (lang : string) (dump : list Page.t) : run :=
  setup lang initial >>> scan dump >>> report.

End Program.

(** ** Flat wikitext

    What [mwparserfromhell.parse(text).filter_templates()] returns on a
    text whose templates are not nested and whose parameters hold no
    braces, links, comments or tags: each [{{name|...}}] in order, a
    parameter being split at its first [=] and an unnamed one taking the
    next number as its name.  As in the parser, a pair of braces whose
    name is blank, holds a brace, a square or an angle bracket, or has a
    line break inside its text, is no template. *)

Module Wikitext.

(** The texts between [{{] and the next [}}]. *)
Fixpoint bodies (inside : option string) (s : string) : list string :=
  match s with
  | EmptyString => []
  | String c s' =>
      match inside with
      | None =>
          match s' with
          | String c' s'' =>
              if (Ascii.eqb c "{" && Ascii.eqb c' "{")%bool
              then bodies (Some "") s'' else bodies None s'
          | EmptyString => []
          end
      | Some body =>
          match s' with
          | String c' s'' =>
              if (Ascii.eqb c "}" && Ascii.eqb c' "}")%bool
              then body :: bodies None s''
              else bodies (Some (body +:+ String c "")) s'
          | EmptyString => []
          end
      end
  end.

Fixpoint split (sep : ascii) (s : string) : list string :=
  match s with
  | EmptyString => [""]
  | String c s' =>
      if Ascii.eqb c sep then "" :: split sep s'
      else match split sep s' with
           | h :: tl => String c h :: tl
           | [] => [String c ""]
           end
  end.

(** [Some (name, value)] for a text with a [=] in it. *)
Fixpoint keyed (s : string) : option (string * string) :=
  match s with
  | EmptyString => None
  | String c s' =>
      if Ascii.eqb c "=" then Some ("", s')
      else match keyed s' with
           | Some (k, v) => Some (String c k, v)
           | None => None
           end
  end.

Fixpoint parameters (next : Z) (l : list string) : list Param.t :=
  match l with
  | [] => []
  | x :: l' =>
      match keyed x with
      | Some (k, v) => Param.mk k v :: parameters next l'
      | None => Param.mk (Str.of_int next) x :: parameters (next + 1) l'
      end
  end.

Fixpoint all_chars (p : ascii -> bool) (s : string) : bool :=
  match s with
  | EmptyString => true
  | String c s' => (p c && all_chars p s')%bool
  end.

Definition name_char (c : ascii) : bool :=
  negb (existsb (Ascii.eqb c) ["{"; "}"; "["; "]"; "<"; ">"; "010"]%char).

(** The names the parser accepts. *)
Definition well_named (name : string) : bool :=
  let n := Str.strip name in
  (negb (String.eqb n "") && all_chars name_char n)%bool.

Definition template (body : string) : list Template.t :=
  match split "|" body with
  | name :: l =>
      if well_named name then [Template.mk name (parameters 1 l)] else []
  | [] => []
  end.

Definition filter_templates (text : option string) : list Template.t :=
  match text with
  | None => []
  | Some s => flat_map template (bodies None s)
  end.

End Wikitext.

(** ** Notions used in the statements *)

(** What [replace(" ", "_")] does to one character. *)
Definition underscore (c : ascii) : ascii :=
  if Ascii.eqb c " " then "_"%char else c.

(** The characters of a string. *)
Definition chars (s : string) : list ascii := list_ascii_of_string s.

(** The invocation has one parameter only, and its normalised name is
    [key]. *)
Definition sole_param_named (key : string) (t : Template.t) : Prop :=
  exists p, Template.params t = [p]
            /\ standardize_template_param_name p = key.

(** The parameter that makes [coord] answer: its value converts to a
    number or, when it does not, its name holds one of the two marks. *)
Definition looks_like_position (p : Param.t) : Prop :=
  py_float (Param.value p) = Ok tt
  \/ (py_float (Param.value p) = Raise ValueError
      /\ (Str.contains "latitude=" (Param.name p) = true
          \/ Str.contains "dd=" (Param.name p) = true)).

(** The keys of [main_templates], in the order of the source. *)
Definition families : list string := ["cd"; "ac"; "tb"; "bd"; "el"].

(** The two dictionaries of [main] have the families as their keys, as
    they do once lines 100-107 have run. *)
Definition shaped (s : state) : Prop :=
  dict_keys (Var.wikidata_usage s) = families
  /\ dict_keys (Var.template_names s) = families.

(** No counter of [d'] is below its value in [d]; same keys, same order. *)
Definition usage_le (d d' : dict usage) : Prop :=
  Forall2 (fun a b => fst a = fst b
                      /\ tracking (snd a) <= tracking (snd b)
                      /\ transclusion (snd a) <= transclusion (snd b)) d d'.

(** A statement keeps a property of the state, also when it raises. *)
Definition preserves (P : state -> Prop) (body : state -> run) : Prop :=
  forall s, P s -> P (final (body s)).

Section Verdicts.

Variable categorymembers : string -> string -> list string.
(** The name sets of the families. *)
Variable tn : dict (gset string).

(** The normalised name of invocation [t] is one of family [f]. *)
Definition matched (f : string) (t : Template.t) : Prop :=
  exists known, dict_get f tn = Some known
                /\ standardize_template_names (Template.name t) ∈ known.

(** The predicate of family [f] answers [b] on [t]: [true] is
    tracking-only, [false] is transclusion. *)
Definition classified (f : string) (t : Template.t) (b : bool) : Prop :=
  exists fam, dict_get f (main_templates categorymembers) = Some fam
              /\ func fam t = Ok b.

(** What family [f] says of invocation [t]: nothing when the name does
    not match, the answer of its predicate when it does. *)
Definition verdict (f : string) (t : Template.t) : option bool :=
  match dict_get f tn with
  | Some known =>
      if bool_decide (standardize_template_names (Template.name t) ∈ known)
      then match dict_get f (main_templates categorymembers) with
           | Some fam =>
               match func fam t with
               | Ok b => Some b
               | Raise _ => None
               end
           | None => None
           end
      else None
  | None => None
  end.

(** One more tracking ([b] true) or transclusion ([b] false) use of [f]. *)
Definition bump (f : string) (b : bool) (d : dict usage) : dict usage :=
  match dict_get f d with
  | Some u =>
      dict_set f (if b then mkUsage (tracking u + 1) (transclusion u)
                  else mkUsage (tracking u) (transclusion u + 1)) d
  | None => d
  end.

(** The effect of one verdict on the counters and on the two flags. *)
Definition count (f : string) (v : option bool) (s : state) : state :=
  match v with
  | None => s
  | Some true =>
      set_wbc (Some true)
        (set_wikidata_usage (bump f true (Var.wikidata_usage s)) s)
  | Some false =>
      set_tracking_only (Some false)
        (set_wbc (Some true)
           (set_wikidata_usage (bump f false (Var.wikidata_usage s)) s))
  end.

Definition count_template (s : state) (t : Template.t) : state :=
  fold_left (fun s f => count f (verdict f t) s) families s.

Definition count_templates (ts : list Template.t) (s : state) : state :=
  fold_left count_template ts s.

(** Some family has a verdict on [t]; some family calls [t] a
    transclusion. *)
Definition hit (t : Template.t) : bool :=
  existsb (fun f => match verdict f t with Some _ => true | None => false end)
    families.

Definition transcluded (t : Template.t) : bool :=
  existsb (fun f => match verdict f t with Some false => true | _ => false end)
    families.

End Verdicts.

(** Lines 121-122 and 134-137 around the loop over the templates. *)
Definition open_revision (s : state) : state :=
  set_tracking_only (Some true) (set_wbc (Some false) s).

Definition close_revision (s : state) : state :=
  match Var.wbc s with
  | Some true =>
      let s := set_prob_wbc (Var.prob_wbc s + 1) s in
      match Var.tracking_only s with
      | Some false => set_actual_wbc (Var.actual_wbc s + 1) s
      | _ => s
      end
  | _ => s
  end.

(** The page is one the loop evaluates: an article that is no redirect. *)
Definition evaluable (page : Page.t) : bool :=
  ((Page.namespace page =? 0)
   && negb (truthy_opt_str (Page.redirect page)))%bool.

(** One line of the report: its columns, tab-separated. *)
Definition tsv_line (cols : list string) : string :=
  String.concat Str.TAB cols +:+ Str.NL.

(** The report the counters of [s] call for. *)
Definition report_text (s : state) : string :=
  tsv_line ["type"; "transclusion"; "tracking"]
  +:+ tsv_line ["total:" +:+ Str.of_int (Var.evaluated s); ""; ""]
  +:+ tsv_line ["wbc_estimate"; Str.of_int (Var.actual_wbc s);
                Str.of_int (Var.prob_wbc s - Var.actual_wbc s)]
  +:+ String.concat ""
        (List.map (fun wu => tsv_line [fst wu;
                                       Str.of_int (transclusion (snd wu));
                                       Str.of_int (tracking (snd wu))])
           (Var.wikidata_usage s)).

(** The entry of [status] for family [w] with counters [u]. *)
Definition status_of (w : string) (u : usage) : status_line :=
  if usage_sum u =? 0 then NoShare w (usage_sum u)
  else Share w (usage_sum u) (mkRatio (transclusion u * 100) (usage_sum u)).

Definition is_stats (line : printed) : bool :=
  match line with StatsLine _ _ _ _ _ _ _ => true | NamesLine _ _ => false end.

(** The invariant of the loops over the templates of one revision. *)
Definition scanning (tn : dict (gset string)) (s : state) : Prop :=
  shaped s /\ Var.template_names s = tn.

(** What the verdicts leave alone. *)
Definition same_totals (s s' : state) : Prop :=
  Var.template_names s' = Var.template_names s
  /\ Var.evaluated s' = Var.evaluated s
  /\ Var.prob_wbc s' = Var.prob_wbc s
  /\ Var.actual_wbc s' = Var.actual_wbc s
  /\ Var.i s' = Var.i s
  /\ Var.status s' = Var.status s
  /\ Var.stdout s' = Var.stdout s
  /\ Var.fout s' = Var.fout s.

(** What the progress lines and the report leave alone. *)
Definition same_counts (s s' : state) : Prop :=
  Var.wikidata_usage s' = Var.wikidata_usage s
  /\ Var.template_names s' = Var.template_names s
  /\ Var.evaluated s' = Var.evaluated s
  /\ Var.prob_wbc s' = Var.prob_wbc s
  /\ Var.actual_wbc s' = Var.actual_wbc s
  /\ Var.i s' = Var.i s
  /\ Var.fout s' = Var.fout s.

(** The counters when the scan starts (line 103). *)
Definition no_usage : dict usage :=
  [ ("cd", mkUsage 0 0); ("ac", mkUsage 0 0); ("tb", mkUsage 0 0);
    ("bd", mkUsage 0 0); ("el", mkUsage 0 0) ].


(** ** A small wiki, for the examples *)

Module Demo.

(** No template has a redirect, and the category is empty. *)
Definition session_get (lang t : string) : api_page := mkApiPage t None.
Definition categorymembers (lang category : string) : list string := [].

Definition names : dict (gset string) :=
  [ ("cd", {[ "coord" ]}); ("ac", {[ "authority_control" ]});
    ("tb", ∅); ("bd", ∅); ("el", ∅) ].

Definition start : state :=
  set_template_names names (set_wikidata_usage no_usage initial).

Definition article (text : string) : Page.t :=
  Page.mk 0 None [Revision.mk (Some text)].

Definition talk_page : Page.t :=
  Page.mk 1 None [Revision.mk (Some "{{Coord|51.5|-0.1}}")].

Definition run_main (dump : list Page.t) : run :=
  main session_get categorymembers Wikitext.filter_templates "en" dump.

Definition three_pages : list Page.t :=
  [ article "{{Coord|51.5|-0.1}}";
    article "{{Authority control|VIAF=1|LCCN=2}}";
    article "{{Authority control|QID=Q1}}" ].


(** One article with a tracking-only and a transclusion invocation. *)
Definition mixed_text : string :=
  "{{Coord|51.5|-0.1}} and {{Authority control|QID=Q1}}".

(** The state [main] reaches at the end of the three pages. *)
Definition scanned : state :=
  Eval vm_compute in
    final (setup session_get categorymembers "en" initial
           >>> scan categorymembers Wikitext.filter_templates three_pages).

End Demo.

(** ** Notions used in the further properties *)

(** The names lines 105-106 gather for the seed titles of one family. *)
Definition seed_names (session_get : string -> string -> api_page)
    (lang : string) (seeds : list string) : gset string :=
  fold_left
    (fun known t_name => known ∪ build_template_list session_get lang t_name)
    seeds ∅.

(** The pages of a dump the loop evaluates, and their revisions. *)
Definition evaluable_count (dump : list Page.t) : Z :=
  Z.of_nat (length (List.filter evaluable dump)).

Definition evaluable_revisions (dump : list Page.t) : Z :=
  Z.of_nat (length (flat_map Page.revisions (List.filter evaluable dump))).

(** The three totals do not move. *)
Definition same_run_totals (s s' : state) : Prop :=
  Var.evaluated s' = Var.evaluated s
  /\ Var.prob_wbc s' = Var.prob_wbc s
  /\ Var.actual_wbc s' = Var.actual_wbc s.

(** From [s] to [s']: [evaluated] is kept, [actual_wbc] grows by no more
    than [prob_wbc] does, and [prob_wbc] by no more than [n]. *)
Definition grows (n : nat) (s s' : state) : Prop :=
  Var.evaluated s' = Var.evaluated s
  /\ 0 <= Var.actual_wbc s' - Var.actual_wbc s
  /\ Var.actual_wbc s' - Var.actual_wbc s
     <= Var.prob_wbc s' - Var.prob_wbc s
  /\ Var.prob_wbc s' - Var.prob_wbc s <= Z.of_nat n.

(** The transclusion counter of a family, if the family is there. *)
Definition transclusion_of (f : string) (s : state) : option Z :=
  transclusion <$> dict_get f (Var.wikidata_usage s).

(** The statistics lines printed so far. *)
Definition stats_printed (s : state) : Z :=
  Z.of_nat (length (List.filter is_stats (Var.stdout s))).

(** The sums of the tracking and of the transclusion counters. *)
Definition total_tracking (d : dict usage) : Z :=
  fold_right (fun fu acc => tracking (snd fu) + acc) 0 d.

Definition total_transclusion (d : dict usage) : Z :=
  fold_right (fun fu acc => transclusion (snd fu) + acc) 0 d.

(** From [s] to [s'], [prob_wbc] grows by no more than the counters do
    together, and [actual_wbc] by no more than the transclusion
    counters do; no sum of counters goes down. *)
Definition counted (s s' : state) : Prop :=
  let d := Var.wikidata_usage s in
  let d' := Var.wikidata_usage s' in
  total_tracking d <= total_tracking d'
  /\ total_transclusion d <= total_transclusion d'
  /\ Var.prob_wbc s' - Var.prob_wbc s
     <= (total_tracking d' + total_transclusion d')
        - (total_tracking d + total_transclusion d)
  /\ Var.actual_wbc s' - Var.actual_wbc s
     <= total_transclusion d' - total_transclusion d.

(** * Properties *)

(** ** Strings *)

(** Reading a variable after assignments. *)
Ltac state_simpl :=
  cbn [Var.wikidata_usage Var.template_names Var.evaluated Var.prob_wbc
       Var.actual_wbc Var.i Var.wbc Var.tracking_only Var.status Var.stdout
       Var.fout set_wikidata_usage set_template_names set_evaluated
       set_prob_wbc set_actual_wbc set_i set_wbc set_tracking_only
       set_status set_stdout set_fout print write final] in *.

(** A fact about every character, by enumeration. *)
Ltac each_char c :=
  destruct c as [[] [] [] [] [] [] [] []]; vm_compute; try reflexivity;
  try discriminate; auto.

Lemma map_map_chars (f g : ascii -> ascii) (s : string) :
  Str.map f (Str.map g s) = Str.map (fun c => f (g c)) s.
Proof. induction s as [|c s IH]; simpl; [reflexivity | now rewrite IH]. Qed.

Lemma map_ext_chars (f g : ascii -> ascii) (s : string) :
  (forall c, f c = g c) -> Str.map f s = Str.map g s.
Proof.
  intros E. induction s as [|c s IH]; simpl; [reflexivity|].
  now rewrite E, IH.
Qed.

Lemma prefix_empty (s : string) : String.prefix "" s = true.
Proof. now destruct s. Qed.

Lemma prefix_char (a c : ascii) (s : string) :
  String.prefix (String a "") (String c s) = Ascii.eqb c a.
Proof.
  cbn [String.prefix]. destruct (ascii_dec a c) as [->|N].
  - now rewrite prefix_empty, Ascii.eqb_refl.
  - symmetry. apply Ascii.eqb_neq. congruence.
Qed.

Lemma replace_space_underscore (s : string) :
  Str.replace " " "_" s = Str.map underscore s.
Proof.
  unfold Str.replace.
  induction s as [|c s IH]; [reflexivity|].
  cbn [Str.replace_from Str.map]. rewrite prefix_char.
  change (Nat.pred (String.length " ")) with O. rewrite IH.
  change (underscore c) with (if Ascii.eqb c " " then "_"%char else c).
  destruct (Ascii.eqb c " "); reflexivity.
Qed.

Section Strip.

Variable sp : ascii -> bool.

Lemma lstrip_length (s : string) :
  (String.length (Str.lstrip_by sp s) <= String.length s)%nat.
Proof.
  induction s as [|c s IH]; simpl; [lia|].
  destruct (sp c); simpl; lia.
Qed.

Lemma lstrip_head (s : string) :
  match Str.lstrip_by sp s with
  | EmptyString => True
  | String c _ => sp c = false
  end.
Proof.
  induction s as [|c s IH]; simpl; [exact I|].
  destruct (sp c) eqn:E; [exact IH | exact E].
Qed.

Lemma lstrip_fixed (c : ascii) (s : string) :
  sp c = false -> Str.lstrip_by sp (String c s) = String c s.
Proof. intros E. simpl. now rewrite E. Qed.

Lemma rstrip_head (c : ascii) (s : string) :
  sp c = false -> exists r, Str.rstrip_by sp (String c s) = String c r.
Proof.
  intros E. simpl. destruct (Str.rstrip_by sp s); rewrite ?E; eauto.
Qed.

Lemma rstrip_idem (s : string) :
  Str.rstrip_by sp (Str.rstrip_by sp s) = Str.rstrip_by sp s.
Proof.
  induction s as [|c s IH]; simpl; [reflexivity|].
  destruct (Str.rstrip_by sp s) as [|d r] eqn:E.
  - destruct (sp c) eqn:Ec; simpl; [reflexivity | now rewrite Ec].
  - change (Str.rstrip_by sp (String c (String d r)))
      with (match Str.rstrip_by sp (String d r) with
            | EmptyString => if sp c then EmptyString else String c EmptyString
            | r' => String c r'
            end).
    now rewrite IH.
Qed.

(** A stripped string has neither end in the class. *)
Lemma strip_left (s : string) :
  Str.lstrip_by sp (Str.strip_by sp s) = Str.strip_by sp s.
Proof.
  unfold Str.strip_by.
  pose proof (lstrip_head s) as H.
  destruct (Str.lstrip_by sp s) as [|c z]; [reflexivity|].
  destruct (rstrip_head c z H) as [r ->]. now apply lstrip_fixed.
Qed.

Lemma strip_right (s : string) :
  Str.rstrip_by sp (Str.strip_by sp s) = Str.strip_by sp s.
Proof. apply rstrip_idem. Qed.

(** A map that sends nothing into the class keeps a string stripped. *)
Variable h : ascii -> ascii.
Hypothesis h_keeps : forall c, sp c = false -> sp (h c) = false.

Lemma lstrip_map (s : string) :
  Str.lstrip_by sp s = s -> Str.lstrip_by sp (Str.map h s) = Str.map h s.
Proof.
  destruct s as [|c s]; simpl; [reflexivity|].
  destruct (sp c) eqn:E.
  - intros H. pose proof (lstrip_length s) as L. rewrite H in L.
    simpl in L. lia.
  - intros _. now rewrite (h_keeps c E).
Qed.

Lemma rstrip_map (s : string) :
  Str.rstrip_by sp s = s -> Str.rstrip_by sp (Str.map h s) = Str.map h s.
Proof.
  induction s as [|c s IH]; simpl; [reflexivity|].
  destruct (Str.rstrip_by sp s) as [|d r] eqn:E.
  - destruct (sp c) eqn:Ec; [discriminate|].
    intros [= <-]. simpl. now rewrite (h_keeps c Ec).
  - intros [= <-]. rewrite IH by reflexivity. reflexivity.
Qed.

Lemma strip_map (s : string) :
  Str.strip_by sp (Str.map h (Str.strip_by sp s))
  = Str.map h (Str.strip_by sp s).
Proof.
  unfold Str.strip_by at 1.
  rewrite lstrip_map by apply strip_left.
  apply rstrip_map, strip_right.
Qed.

End Strip.

Lemma normal_char_keeps_space (c : ascii) :
  Str.isspace c = false -> Str.isspace (underscore (Str.lower_char c)) = false.
Proof. each_char c. Qed.

Lemma normal_char_idem (c : ascii) :
  underscore (Str.lower_char (underscore (Str.lower_char c)))
  = underscore (Str.lower_char c).
Proof. each_char c. Qed.

Lemma standardize_as_map (t : string) :
  standardize_template_names t
  = Str.map (fun c => underscore (Str.lower_char c)) (Str.strip t).
Proof.
  unfold standardize_template_names, Str.lower.
  now rewrite replace_space_underscore, map_map_chars.
Qed.

(** C7: normalising a template name twice is normalising it once, and
    the name ["  Coord  "] normalises to ["coord"]. *)
Theorem standardize_template_names_idempotent :
  (forall s : string,
     standardize_template_names (standardize_template_names s)
     = standardize_template_names s)
  /\ standardize_template_names "  Coord  " = "coord".
Proof.
  split; [|reflexivity].
  intros s. rewrite !standardize_as_map. unfold Str.strip.
  rewrite (strip_map Str.isspace _ normal_char_keeps_space).
  rewrite map_map_chars. apply map_ext_chars, normal_char_idem.
Qed.

(** ** Namespace stripping in [build_template_list] *)

Lemma find_absent (c : ascii) (s : string) :
  ~ In c (chars s) -> Str.find c s = -1.
Proof.
  induction s as [|d s IH]; simpl; [reflexivity|].
  intros N. destruct (Ascii.eqb d c) eqn:E.
  - apply Ascii.eqb_eq in E. tauto.
  - rewrite IH by tauto. reflexivity.
Qed.

Lemma find_first (c : ascii) (pre rest : string) :
  ~ In c (chars pre) ->
  Str.find c (pre +:+ String c rest) = Z.of_nat (String.length pre).
Proof.
  induction pre as [|d pre IH]; simpl.
  - intros _. now rewrite Ascii.eqb_refl.
  - intros N. destruct (Ascii.eqb d c) eqn:E.
    + apply Ascii.eqb_eq in E. tauto.
    + rewrite IH by tauto. destruct (String.length pre); simpl; lia.
Qed.

Lemma drop_past (c : ascii) (pre rest : string) :
  Str.drop (S (String.length pre)) (pre +:+ String c rest) = rest.
Proof. induction pre as [|d pre IH]; simpl; [reflexivity | exact IH]. Qed.

Lemma split_at_first (c : ascii) (s : string) :
  ~ In c (chars s)
  \/ exists pre rest, s = pre +:+ String c rest /\ ~ In c (chars pre).
Proof.
  induction s as [|d s IH]; simpl; [tauto|].
  destruct (ascii_dec d c) as [->|N].
  - right. exists "", s. simpl. tauto.
  - destruct IH as [IH | (pre & rest & -> & IH)].
    + left. tauto.
    + right. exists (String d pre), rest. simpl. tauto.
Qed.

Lemma slice_no_colon (t : string) :
  ~ In ":"%char (chars t) ->
  Str.find ":" t = -1 /\ Str.slice_from (Str.find ":" t + 1) t = t.
Proof. intros N. rewrite (find_absent _ _ N). split; reflexivity. Qed.

Lemma slice_first_colon (pre rest : string) :
  ~ In ":"%char (chars pre) ->
  let t := pre +:+ String ":" rest in
  Str.slice_from (Str.find ":" t + 1) t = rest.
Proof.
  intros N t. unfold t. rewrite (find_first _ _ _ N).
  unfold Str.slice_from.
  destruct (Z.ltb_spec (Z.of_nat (String.length pre) + 1) 0) as [L|_]; [lia|].
  replace (Z.to_nat (Z.of_nat (String.length pre) + 1))
    with (S (String.length pre)) by lia.
  apply drop_past.
Qed.

Lemma fold_union_elem (g : string -> string) (l : list string)
    (acc : gset string) (x : string) :
  x ∈ fold_left (fun names t => names ∪ {[ g t ]}) l acc
  <-> x ∈ acc \/ exists t, In t l /\ x = g t.
Proof.
  revert acc. induction l as [|t l IH]; intros acc; simpl.
  - split; [tauto | intros [H | (t & [] & _)]; exact H].
  - rewrite IH. rewrite elem_of_union, elem_of_singleton. split.
    + intros [[H | ->] | (t' & H & ->)]; eauto.
    + intros [H | (t' & [<- | H] & ->)]; eauto.
Qed.

(** C10: [build_template_list] returns the normalised names of the title
    and of its redirects, each cut after its first colon: a title
    without a colon is kept whole ([find] gives -1), and a title loses
    what comes before its first colon and keeps the later ones. *)
Theorem build_template_list_strips_namespace
    (session_get : string -> string -> api_page) (lang main : string) :
  let result := session_get lang main in
  let titles := title result :: default [] (redirects result) in
  (forall x : string,
     x ∈ build_template_list session_get lang main
     <-> exists t, In t titles
                   /\ x = standardize_template_names
                            (Str.slice_from (Str.find ":" t + 1) t))
  /\ (forall t : string,
        ~ In ":"%char (chars t) ->
        Str.find ":" t = -1 /\ Str.slice_from (Str.find ":" t + 1) t = t)
  /\ (forall pre rest : string,
        ~ In ":"%char (chars pre) ->
        Str.slice_from (Str.find ":" (pre +:+ ":" +:+ rest) + 1)
          (pre +:+ ":" +:+ rest) = rest)
  /\ (forall t : string,
        ~ In ":"%char (chars t)
        \/ exists pre rest, t = pre +:+ ":" +:+ rest
                            /\ ~ In ":"%char (chars pre)).
Proof.
  intros result titles. repeat split.
  - unfold build_template_list. fold result. fold titles.
    rewrite (fold_union_elem
               (fun t => standardize_template_names
                           (Str.slice_from (Str.find ":" t + 1) t))).
    intros [H | H]; [now apply not_elem_of_empty in H | exact H].
  - unfold build_template_list. fold result. fold titles.
    rewrite (fold_union_elem
               (fun t => standardize_template_names
                           (Str.slice_from (Str.find ":" t + 1) t))).
    intros H. right. exact H.
  - now apply slice_no_colon.
  - now apply slice_no_colon.
  - intros pre rest N. exact (slice_first_colon pre rest N).
  - intros t. exact (split_at_first ":" t).
Qed.

(** ** The predicates *)

Lemma py_float_cases (v : string) :
  py_float v = Ok tt \/ py_float v = Raise ValueError.
Proof. unfold py_float. destruct (Float.accepts v); auto. Qed.

Lemma coord_loop_step (p : Param.t) (ps : list Param.t) :
  coord_loop (p :: ps)
  = if Float.accepts (Param.value p) then Ok true
    else if (Str.contains "latitude=" (Param.name p)
             || Str.contains "dd=" (Param.name p))%bool then Ok true
    else coord_loop ps.
Proof.
  cbn [coord_loop]. unfold py_float.
  destruct (Float.accepts (Param.value p)); [reflexivity|].
  cbn. destruct (Str.contains "latitude=" (Param.name p)
                 || Str.contains "dd=" (Param.name p))%bool; reflexivity.
Qed.

Lemma looks_like_position_dec (p : Param.t) :
  looks_like_position p
  <-> (Float.accepts (Param.value p)
       || (Str.contains "latitude=" (Param.name p)
           || Str.contains "dd=" (Param.name p)))%bool = true.
Proof.
  unfold looks_like_position, py_float.
  destruct (Float.accepts (Param.value p)); simpl.
  - split; auto.
  - rewrite orb_true_iff. split.
    + intros [H | [_ H]]; [discriminate | exact H].
    + intros H. right. split; [reflexivity | exact H].
Qed.

Lemma coord_loop_spec (ps : list Param.t) :
  (coord_loop ps = Ok true /\ Exists looks_like_position ps)
  \/ (coord_loop ps = Ok false /\ ~ Exists looks_like_position ps).
Proof.
  induction ps as [|p ps IH].
  - right. split; [reflexivity | now rewrite Exists_nil].
  - rewrite coord_loop_step, Exists_cons, looks_like_position_dec.
    destruct (Float.accepts (Param.value p)); simpl; [left; auto|].
    destruct (Str.contains "latitude=" (Param.name p)
              || Str.contains "dd=" (Param.name p))%bool; [left; auto|].
    destruct IH as [[-> H] | [-> H]]; [left | right]; split; auto.
    intros [D | E]; [discriminate | contradiction].
Qed.

(** C4: [coord] answers true exactly when some parameter has a value
    that converts to a number or, its value not converting, a name that
    holds [latitude=] or [dd=]; it answers false otherwise and never
    raises.  So it is true with a parameter valued [51.5], true for a
    parameter named [latitude=] whatever its value, and false for the
    sole parameter [caption] valued [a castle]. *)
Theorem coord_tracking_iff_position :
  (forall t : Template.t,
     (coord t = Ok true <-> Exists looks_like_position (Template.params t))
     /\ (coord t = Ok false
         <-> ~ Exists looks_like_position (Template.params t))
     /\ (exists b, coord t = Ok b))
  /\ (forall (n k : string) (before after : list Param.t),
        py_float "51.5" = Ok tt
        /\ coord (Template.mk n (before ++ Param.mk k "51.5" :: after))
           = Ok true)
  /\ (forall n v : string,
        coord (Template.mk n [Param.mk "latitude=" v]) = Ok true)
  /\ (forall n : string,
        py_float "a castle" = Raise ValueError
        /\ coord (Template.mk n [Param.mk "caption" "a castle"]) = Ok false).
Proof.
  assert (forall t : Template.t,
     (coord t = Ok true <-> Exists looks_like_position (Template.params t))
     /\ (coord t = Ok false
         <-> ~ Exists looks_like_position (Template.params t))
     /\ (exists b, coord t = Ok b)) as Main.
  { intros t. unfold coord.
    destruct (coord_loop_spec (Template.params t)) as [[E H] | [E H]];
      rewrite E; repeat split; eauto; try discriminate; try tauto. }
  split; [exact Main|]. repeat split.
  - apply Main. cbn [Template.params]. apply Exists_app. right.
    apply Exists_cons_hd. left. reflexivity.
  - intros n v. apply Main. cbn [Template.params]. apply Exists_cons_hd.
    destruct (py_float_cases v) as [E | E]; [left | right]; cbn; auto.
Qed.

Lemma sole_override_spec (key : string) (t : Template.t) :
  (sole_override key t = Ok false
   /\ (Template.params t = [] \/ sole_param_named key t))
  \/ (sole_override key t = Ok true
      /\ ~ (Template.params t = [] \/ sole_param_named key t)).
Proof.
  unfold sole_override, sole_param_named.
  destruct (Template.params t) as [|p [|q l]].
  - left. auto.
  - cbn.
    destruct (String.eqb_spec (standardize_template_param_name p) key) as [E|N];
      cbn; [left | right]; split; eauto.
    intros [D | (p' & [= <-] & E)]; [discriminate | contradiction].
  - right. split.
    + cbn [truthy_list].
      assert ((1 <? Z.of_nat (length (p :: q :: l))) = true) as ->
        by (apply Z.ltb_lt; cbn [length]; lia).
      reflexivity.
    + intros [D | (p' & D & _)]; discriminate.
Qed.

(** C2, as the code has it: [ac] answers false (transclusion) exactly
    when the invocation has no parameter at all or has one parameter
    only, whose normalised name is [qid]; it answers true in every
    other case and never raises.  [tb] does the same with [from]. *)
Theorem ac_tb_transclusion_iff (t : Template.t) :
  (ac t = Ok false
   <-> Template.params t = [] \/ sole_param_named "qid" t)
  /\ (ac t = Ok true
      <-> ~ (Template.params t = [] \/ sole_param_named "qid" t))
  /\ (tb t = Ok false
      <-> Template.params t = [] \/ sole_param_named "from" t)
  /\ (tb t = Ok true
      <-> ~ (Template.params t = [] \/ sole_param_named "from" t)).
Proof.
  unfold ac, tb.
  destruct (sole_override_spec "qid" t) as [[-> H] | [-> H]];
    destruct (sole_override_spec "from" t) as [[-> H'] | [-> H']];
    repeat split; intros; try discriminate; tauto.
Qed.

(** C2 fails without parameters: [ac] and [tb] answer false there,
    though no parameter is named [qid] or [from]. *)
Lemma ac_tb_without_params_transclude :
  let t := Template.mk "Authority control" [] in
  let t' := Template.mk "Taxonbar" [] in
  (ac t = Ok false /\ ~ sole_param_named "qid" t /\ ac t <> Ok true)
  /\ (tb t' = Ok false /\ ~ sole_param_named "from" t' /\ tb t' <> Ok true).
Proof.
  cbv zeta. repeat split; try discriminate;
    intros (p & D & _); discriminate.
Qed.

Lemma el_spec (t : Template.t) :
  (el t = Ok false
   /\ (Template.params t = [] \/ sole_param_named "name" t))
  \/ (el t = Ok true
      /\ ~ (Template.params t = [] \/ sole_param_named "name" t)).
Proof.
  unfold el, sole_param_named.
  destruct (Template.params t) as [|p [|q l]].
  - left. auto.
  - cbn.
    destruct (String.eqb_spec (standardize_template_param_name p) "name") as [E|N];
      cbn; [left | right]; split; eauto.
    intros [D | (p' & [= <-] & E)]; [discriminate | contradiction].
  - right. split.
    + cbn [truthy_list].
      assert ((Z.of_nat (length (p :: q :: l)) =? 1) = false) as ->
        by (apply Z.eqb_neq; cbn [length]; lia).
      reflexivity.
    + intros [D | (p' & D & _)]; discriminate.
Qed.

(** C3, as the code has it: [el] answers false (transclusion) exactly
    when the invocation has no parameter at all or has one parameter
    only, whose normalised name is [name], whatever its value; it
    answers true in every other case, as for the two parameters [name]
    and [url], and never raises. *)
Theorem el_transclusion_iff :
  (forall t : Template.t,
     (el t = Ok false
      <-> Template.params t = [] \/ sole_param_named "name" t)
     /\ (el t = Ok true
         <-> ~ (Template.params t = [] \/ sole_param_named "name" t)))
  /\ (forall n v : string, el (Template.mk n [Param.mk "name" v]) = Ok false)
  /\ (forall n v w : string,
        el (Template.mk n [Param.mk "name" v; Param.mk "url" w]) = Ok true).
Proof.
  repeat split; try reflexivity;
    destruct (el_spec t) as [[E H] | [E H]]; rewrite E in *;
    intros; try discriminate; tauto.
Qed.

(** C3 fails without parameters: [el] answers false there, though no
    parameter is named [name]. *)
Lemma el_without_params_transcludes :
  let t := Template.mk "IMDb name" [] in
  el t = Ok false /\ ~ sole_param_named "name" t /\ el t <> Ok true.
Proof.
  cbv zeta. repeat split; try discriminate.
  intros (p & D & _); discriminate.
Qed.

(** ** Loops and dictionaries *)

(** Two states with the same variables are the same state. *)
Lemma state_ext (s s' : state) :
  Var.wikidata_usage s = Var.wikidata_usage s' ->
  Var.template_names s = Var.template_names s' ->
  Var.evaluated s = Var.evaluated s' ->
  Var.prob_wbc s = Var.prob_wbc s' ->
  Var.actual_wbc s = Var.actual_wbc s' ->
  Var.i s = Var.i s' ->
  Var.wbc s = Var.wbc s' ->
  Var.tracking_only s = Var.tracking_only s' ->
  Var.status s = Var.status s' ->
  Var.stdout s = Var.stdout s' ->
  Var.fout s = Var.fout s' ->
  s = s'.
Proof. destruct s, s'; cbn; intros; subst; reflexivity. Qed.


Lemma for_each_fold {A} (P : state -> Prop) (g : state -> A -> state)
    (body : A -> state -> run) (l : list A) :
  (forall x s, In x l -> P s -> body x s = Done (g s x) /\ P (g s x)) ->
  forall s, P s ->
    for_each l body s = Done (fold_left g l s) /\ P (fold_left g l s).
Proof.
  induction l as [|a l IH]; intros H s Ps; cbn [for_each fold_left].
  - auto.
  - destruct (H a s (or_introl eq_refl) Ps) as [-> Pg].
    cbn [and_then]. apply IH; [|exact Pg].
    intros x s' Hx. apply H. now right.
Qed.

Lemma preserves_and_then (P : state -> Prop) (r : run) (k : state -> run) :
  P (final r) -> preserves P k -> P (final (r >>> k)).
Proof. destruct r; cbn; auto. Qed.

Lemma preserves_for_each {A} (P : state -> Prop) (body : A -> state -> run)
    (l : list A) :
  (forall x, preserves P (body x)) -> preserves P (for_each l body).
Proof.
  intros H. induction l as [|a l IH]; intros s Ps; cbn [for_each].
  - exact Ps.
  - apply preserves_and_then; [now apply H | exact IH].
Qed.

Lemma preserves_eval {A} (P : state -> Prop) (e : result A) (s : state)
    (k : A -> run) :
  P s -> (forall a, e = Ok a -> P (final (k a))) -> P (final (eval e s k)).
Proof. destruct e; cbn; auto. Qed.

Lemma for_each_app {A} (body : A -> state -> run) (l l' : list A) (s : state) :
  for_each (l ++ l') body s = for_each l body s >>> for_each l' body.
Proof.
  revert s. induction l as [|a l IH]; intros s; cbn [for_each app and_then].
  - reflexivity.
  - destruct (body a s); cbn [and_then]; [apply IH | reflexivity].
Qed.

Lemma enumerate_app {A} (k : Z) (l l' : list A) :
  enumerate k (l ++ l')
  = (enumerate k l ++ enumerate (k + Z.of_nat (length l)) l')%list.
Proof.
  revert k. induction l as [|a l IH]; intros k; cbn [enumerate app length].
  - now rewrite Z.add_0_r.
  - rewrite IH. do 3 f_equal. lia.
Qed.

Section Dict.

Context {V : Type}.
Implicit Types (d : dict V) (k : string) (v : V).

Lemma dict_get_key k d : In k (dict_keys d) -> exists v, dict_get k d = Some v.
Proof.
  induction d as [|[k' v'] d IH]; cbn; [tauto|].
  destruct (String.eqb_spec k' k) as [->|N]; [eauto|].
  intros [E | H]; [contradiction | auto].
Qed.

Lemma dict_get_in k d v : dict_get k d = Some v -> In k (dict_keys d).
Proof.
  induction d as [|[k' v'] d IH]; cbn; [discriminate|].
  destruct (String.eqb_spec k' k) as [->|N]; auto.
Qed.

Lemma dict_keys_set k d v v' :
  dict_get k d = Some v' -> dict_keys (dict_set k v d) = dict_keys d.
Proof.
  induction d as [|[k' w] d IH]; cbn; [discriminate|].
  destruct (String.eqb_spec k' k) as [->|N]; cbn; [reflexivity|].
  intros H. f_equal. auto.
Qed.

Lemma dict_get_set k d v : dict_get k (dict_set k v d) = Some v.
Proof.
  induction d as [|[k' w] d IH]; cbn; [now rewrite String.eqb_refl|].
  destruct (String.eqb_spec k' k) as [->|N]; cbn.
  - now rewrite String.eqb_refl.
  - destruct (String.eqb_spec k' k); [contradiction | exact IH].
Qed.

Lemma dict_get_set_other k k' d v :
  k' <> k -> dict_get k' (dict_set k v d) = dict_get k' d.
Proof.
  intros N. induction d as [|[k0 w] d IH]; cbn.
  - destruct (String.eqb_spec k k'); [congruence | reflexivity].
  - destruct (String.eqb_spec k0 k) as [->|N0]; cbn.
    + destruct (String.eqb_spec k k'); [congruence | reflexivity].
    + destruct (String.eqb_spec k0 k'); [reflexivity | exact IH].
Qed.

End Dict.

Lemma usage_le_refl (d : dict usage) : usage_le d d.
Proof. induction d; constructor; auto. repeat split; lia. Qed.


Lemma usage_le_set (k : string) (u v : usage) (d : dict usage) :
  dict_get k d = Some u ->
  tracking u <= tracking v -> transclusion u <= transclusion v ->
  usage_le d (dict_set k v d).
Proof.
  intros H T U. induction d as [|[k' w] d IH]; cbn in *; [discriminate|].
  destruct (String.eqb_spec k' k) as [->|N].
  - injection H as ->. constructor; [|apply usage_le_refl].
    cbn. repeat split; assumption.
  - constructor; [|now apply IH].
    cbn. repeat split; lia.
Qed.

Lemma usage_le_bump (f : string) (b : bool) (d : dict usage) :
  usage_le d (bump f b d).
Proof.
  unfold bump. destruct (dict_get f d) as [u|] eqn:E; [|apply usage_le_refl].
  apply (usage_le_set _ u); [exact E | |]; destruct b; cbn; lia.
Qed.

(** ** The scan loop refines the verdicts *)

Section Scan.

Variable cm : string -> string -> list string.
Variable ft : option string -> list Template.t.

Lemma coord_total (t : Template.t) : exists b, coord t = Ok b.
Proof.
  unfold coord.
  destruct (coord_loop_spec (Template.params t)) as [[-> _] | [-> _]]; eauto.
Qed.

Lemma sole_override_total (key : string) (t : Template.t) :
  exists b, sole_override key t = Ok b.
Proof. destruct (sole_override_spec key t) as [[-> _] | [-> _]]; eauto. Qed.

Lemma el_total (t : Template.t) : exists b, el t = Ok b.
Proof. destruct (el_spec t) as [[-> _] | [-> _]]; eauto. Qed.

Lemma main_templates_total (f : string) :
  In f families ->
  exists fam, dict_get f (main_templates cm) = Some fam
              /\ forall t, exists b, func fam t = Ok b.
Proof.
  intros [<- | [<- | [<- | [<- | [<- | []]]]]];
    (eexists; split; [reflexivity|]); cbn [func]; intros t.
  - apply coord_total.
  - apply sole_override_total.
  - apply sole_override_total.
  - exists true. reflexivity.
  - apply el_total.
Qed.

Lemma shaped_bump (f : string) (b : bool) (d : dict usage) :
  dict_keys (bump f b d) = dict_keys d.
Proof.
  unfold bump. destruct (dict_get f d) as [u|] eqn:E; [|reflexivity].
  now apply dict_keys_set with (v' := u).
Qed.

Lemma scanning_count (tn : dict (gset string)) (f : string)
    (v : option bool) (s : state) :
  scanning tn s -> scanning tn (count f v s).
Proof.
  intros [[U N] E]. unfold count.
  destruct v as [[]|]; repeat split; state_simpl;
    rewrite ?shaped_bump; assumption.
Qed.

Lemma check_family_refines (tn : dict (gset string)) (t : Template.t)
    (f : string) (s : state) :
  In f families -> scanning tn s ->
  check_family cm t (standardize_template_names (Template.name t)) f s
  = Done (count f (verdict cm tn f t) s)
  /\ scanning tn (count f (verdict cm tn f t) s).
Proof.
  intros Hf Hs. split; [|now apply scanning_count].
  destruct Hs as [[U N] <-].
  destruct (dict_get_key f (Var.template_names s)) as [known Hk];
    [now rewrite N|].
  destruct (dict_get_key f (Var.wikidata_usage s)) as [u Hu];
    [now rewrite U|].
  destruct (main_templates_total f Hf) as (fam & Hfam & Htot).
  destruct (Htot t) as [b Hb].
  unfold check_family, verdict, dict_getitem.
  rewrite Hk, Hfam, Hu. cbn [eval].
  destruct (bool_decide _); [|reflexivity].
  cbn [mbind result_bind]. rewrite Hb. cbn [eval].
  unfold count, bump. rewrite Hu. destruct b; reflexivity.
Qed.

Lemma check_template_refines (tn : dict (gset string)) (t : Template.t)
    (s : state) :
  scanning tn s ->
  check_template cm t s = Done (count_template cm tn s t)
  /\ scanning tn (count_template cm tn s t).
Proof.
  intros Hs. unfold check_template, count_template.
  destruct Hs as [[U N] E]. rewrite N.
  apply (for_each_fold (scanning tn)
           (fun s f => count f (verdict cm tn f t) s)).
  - intros f s' Hf Hs'. now apply check_family_refines.
  - repeat split; assumption.
Qed.

Lemma check_templates_refine (tn : dict (gset string))
    (ts : list Template.t) (s : state) :
  scanning tn s ->
  for_each ts (check_template cm) s = Done (count_templates cm tn ts s)
  /\ scanning tn (count_templates cm tn ts s).
Proof.
  intros Hs. unfold count_templates.
  apply (for_each_fold (scanning tn) (count_template cm tn)); [|exact Hs].
  intros t s' _ Hs'. now apply check_template_refines.
Qed.

(** The flags and the other variables after the verdicts. *)
Lemma count_flags (tn : dict (gset string)) (f : string) (t : Template.t)
    (s : state) (w o : bool) :
  Var.wbc s = Some w -> Var.tracking_only s = Some o ->
  let v := verdict cm tn f t in
  let s' := count f v s in
  Var.wbc s' = Some (w || match v with Some _ => true | None => false end)
  /\ Var.tracking_only s'
     = Some (o && negb match v with Some false => true | _ => false end).
Proof.
  intros W O v s'. subst s'. destruct v as [[]|]; cbn; rewrite ?W, ?O;
    rewrite ?orb_true_r, ?orb_false_r, ?andb_true_r, ?andb_false_r; auto.
Qed.

Lemma count_family_flags (tn : dict (gset string)) (t : Template.t)
    (fs : list string) (s : state) (w o : bool) :
  Var.wbc s = Some w -> Var.tracking_only s = Some o ->
  let s' := fold_left (fun s f => count f (verdict cm tn f t) s) fs s in
  Var.wbc s'
  = Some (w || existsb (fun f => match verdict cm tn f t with
                                 | Some _ => true | None => false end) fs)
  /\ Var.tracking_only s'
     = Some (o && negb (existsb (fun f => match verdict cm tn f t with
                                          | Some false => true
                                          | _ => false end) fs)).
Proof.
  revert s w o. induction fs as [|f fs IH]; intros s w o W O;
    cbn [fold_left existsb].
  - now rewrite orb_false_r, andb_true_r.
  - destruct (count_flags tn f t s w o W O) as [W' O'].
    destruct (IH _ _ _ W' O') as [-> ->].
    now rewrite negb_orb, orb_assoc, andb_assoc.
Qed.

Lemma count_template_flags (tn : dict (gset string)) (t : Template.t)
    (s : state) (w o : bool) :
  Var.wbc s = Some w -> Var.tracking_only s = Some o ->
  Var.wbc (count_template cm tn s t) = Some (w || hit cm tn t)
  /\ Var.tracking_only (count_template cm tn s t)
     = Some (o && negb (transcluded cm tn t)).
Proof. apply count_family_flags. Qed.

Lemma count_templates_flags (tn : dict (gset string)) (ts : list Template.t)
    (s : state) (w o : bool) :
  Var.wbc s = Some w -> Var.tracking_only s = Some o ->
  Var.wbc (count_templates cm tn ts s) = Some (w || existsb (hit cm tn) ts)
  /\ Var.tracking_only (count_templates cm tn ts s)
     = Some (o && negb (existsb (transcluded cm tn) ts)).
Proof.
  revert s w o. induction ts as [|t ts IH]; intros s w o W O.
  - cbn. now rewrite orb_false_r, andb_true_r.
  - change (count_templates cm tn (t :: ts) s)
      with (count_templates cm tn ts (count_template cm tn s t)).
    destruct (count_template_flags tn t s w o W O) as [W' O'].
    destruct (IH _ _ _ W' O') as [-> ->]. cbn [existsb].
    now rewrite negb_orb, orb_assoc, andb_assoc.
Qed.

Lemma same_totals_refl (s : state) : same_totals s s.
Proof. repeat split. Qed.

Lemma same_totals_trans (s1 s2 s3 : state) :
  same_totals s1 s2 -> same_totals s2 s3 -> same_totals s1 s3.
Proof.
  unfold same_totals. intros (?&?&?&?&?&?&?&?) (?&?&?&?&?&?&?&?).
  repeat split; congruence.
Qed.

Lemma count_same_totals (f : string) (v : option bool) (s : state) :
  same_totals s (count f v s).
Proof. destruct v as [[]|]; repeat split. Qed.

Lemma count_templates_same_totals (tn : dict (gset string))
    (ts : list Template.t) (s : state) :
  same_totals s (count_templates cm tn ts s).
Proof.
  revert s. induction ts as [|t ts IH]; intros s;
    cbn [count_templates fold_left]; [apply same_totals_refl|].
  eapply same_totals_trans; [|apply IH].
  unfold count_template. generalize families as fs.
  intros fs. revert s. induction fs as [|f fs IHf]; intros s;
    cbn [fold_left]; [apply same_totals_refl|].
  eapply same_totals_trans; [apply count_same_totals | apply IHf].
Qed.

Lemma scan_revision_refines (revision : Revision.t) (s : state) :
  shaped s ->
  let ts := ft (Revision.text revision) in
  let s' := close_revision
              (count_templates cm (Var.template_names s) ts (open_revision s)) in
  scan_revision cm ft revision s = Done s'
  /\ shaped s' /\ Var.template_names s' = Var.template_names s.
Proof.
  intros Hs ts s'. subst s'.
  assert (scanning (Var.template_names s) (open_revision s)) as Ho
    by (destruct Hs; repeat split; assumption).
  destruct (check_templates_refine _ ts _ Ho) as [E [Hsh Hn]].
  destruct (count_templates_flags (Var.template_names s) ts
              (open_revision s) false true eq_refl eq_refl) as [W O].
  unfold scan_revision. fold ts.
  change (set_tracking_only (Some true) (set_wbc (Some false) s))
    with (open_revision s).
  rewrite E. cbn [and_then]. unfold close_revision.
  set (s1 := count_templates cm (Var.template_names s) ts (open_revision s)) in *.
  rewrite W. cbn [local eval].
  destruct (false || existsb (hit cm (Var.template_names s)) ts)%bool.
  - change (Var.tracking_only (set_prob_wbc (Var.prob_wbc s1 + 1) s1))
      with (Var.tracking_only s1).
    rewrite O. cbn [local eval].
    destruct (true && negb (existsb (transcluded cm (Var.template_names s)) ts))%bool;
      cbn [negb]; (split; [reflexivity|]); destruct Hsh; repeat split; auto.
  - split; [reflexivity|]. destruct Hsh; repeat split; auto.
Qed.

(** Verdicts, in the words of the claims. *)
Lemma verdict_some (tn : dict (gset string)) (f : string) (t : Template.t)
    (b : bool) :
  verdict cm tn f t = Some b <-> matched tn f t /\ classified cm f t b.
Proof.
  unfold verdict, matched, classified. split.
  - destruct (dict_get f tn) as [known|]; [|discriminate].
    destruct (bool_decide_reflect
                (standardize_template_names (Template.name t) ∈ known))
      as [M|M]; [|discriminate].
    destruct (dict_get f (main_templates cm)) as [fam|]; [|discriminate].
    destruct (func fam t) as [b'|] eqn:E; [|discriminate].
    intros [= <-]. split; [exists known | exists fam]; auto.
  - intros [(known & -> & M) (fam & -> & ->)].
    now rewrite bool_decide_eq_true_2.
Qed.

Lemma matched_family (tn : dict (gset string)) (f : string) (t : Template.t) :
  dict_keys tn = families -> matched tn f t -> In f families.
Proof. intros <- (known & H & _). eapply dict_get_in, H. Qed.

Lemma matched_verdict (tn : dict (gset string)) (f : string) (t : Template.t) :
  dict_keys tn = families -> matched tn f t ->
  exists b, verdict cm tn f t = Some b.
Proof.
  intros K M.
  destruct (main_templates_total f (matched_family tn f t K M))
    as (fam & Hfam & Htot).
  destruct (Htot t) as [b Hb]. exists b. apply verdict_some. split; [exact M|].
  exists fam. auto.
Qed.

Lemma hit_iff (tn : dict (gset string)) (t : Template.t) :
  dict_keys tn = families ->
  hit cm tn t = true <-> exists f, matched tn f t.
Proof.
  intros K. unfold hit. rewrite existsb_exists. split.
  - intros (f & _ & H). exists f.
    destruct (verdict cm tn f t) as [b|] eqn:E; [|discriminate].
    now apply verdict_some in E.
  - intros (f & M). exists f. split; [now apply (matched_family tn f t)|].
    destruct (matched_verdict tn f t K M) as [b ->]. reflexivity.
Qed.

Lemma transcluded_iff (tn : dict (gset string)) (t : Template.t) :
  dict_keys tn = families ->
  transcluded cm tn t = true
  <-> exists f, matched tn f t /\ classified cm f t false.
Proof.
  intros K. unfold transcluded. rewrite existsb_exists. split.
  - intros (f & _ & H). exists f.
    destruct (verdict cm tn f t) as [[]|] eqn:E; try discriminate.
    now apply verdict_some in E.
  - intros (f & M & C). exists f.
    split; [now apply (matched_family tn f t)|].
    now rewrite (proj2 (verdict_some tn f t false) (conj M C)).
Qed.

Lemma transcluded_hit (tn : dict (gset string)) (t : Template.t) :
  transcluded cm tn t = true -> hit cm tn t = true.
Proof.
  unfold transcluded, hit. rewrite !existsb_exists.
  intros (f & Hf & H). exists f. split; [exact Hf|].
  now destruct (verdict cm tn f t) as [[]|].
Qed.

Lemma exists_hit (tn : dict (gset string)) (ts : list Template.t) :
  dict_keys tn = families ->
  existsb (hit cm tn) ts = true
  <-> exists t f, In t ts /\ matched tn f t.
Proof.
  intros K. rewrite existsb_exists. split.
  - intros (t & Ht & H). apply (hit_iff tn t K) in H as [f M]. eauto.
  - intros (t & f & Ht & M). exists t. split; [exact Ht|].
    apply (hit_iff tn t K). eauto.
Qed.

Lemma exists_transcluded (tn : dict (gset string)) (ts : list Template.t) :
  dict_keys tn = families ->
  existsb (transcluded cm tn) ts = true
  <-> exists t f, In t ts /\ matched tn f t /\ classified cm f t false.
Proof.
  intros K. rewrite existsb_exists. split.
  - intros (t & Ht & H). apply (transcluded_iff tn t K) in H as (f & M & C).
    eauto.
  - intros (t & f & Ht & M & C). exists t. split; [exact Ht|].
    apply (transcluded_iff tn t K). eauto.
Qed.

(** The totals after one revision. *)
Lemma close_revision_totals (tn : dict (gset string)) (ts : list Template.t)
    (s : state) :
  let s' := close_revision (count_templates cm tn ts (open_revision s)) in
  Var.prob_wbc s'
  = Var.prob_wbc s + (if existsb (hit cm tn) ts then 1 else 0)
  /\ Var.actual_wbc s'
     = Var.actual_wbc s + (if existsb (transcluded cm tn) ts then 1 else 0)
  /\ Var.evaluated s' = Var.evaluated s
  /\ Var.i s' = Var.i s
  /\ Var.stdout s' = Var.stdout s
  /\ Var.fout s' = Var.fout s.
Proof.
  intros s'. subst s'.
  destruct (count_templates_flags tn ts (open_revision s) false true
              eq_refl eq_refl) as [W O].
  destruct (count_templates_same_totals tn ts (open_revision s))
    as (_ & E & P & A & I & _ & S & F).
  unfold close_revision.
  set (s1 := count_templates cm tn ts (open_revision s)) in *.
  unfold open_revision in E, P, A, I, S, F. state_simpl.
  rewrite W. cbn [orb].
  destruct (existsb (hit cm tn) ts) eqn:H.
  - change (Var.tracking_only (set_prob_wbc (Var.prob_wbc s1 + 1) s1))
      with (Var.tracking_only s1).
    rewrite O. cbn [andb].
    destruct (existsb (transcluded cm tn) ts); cbn [negb]; state_simpl;
      rewrite ?E, ?P, ?A, ?I, ?S, ?F; repeat split; lia.
  - assert (existsb (transcluded cm tn) ts = false) as ->.
    { destruct (existsb (transcluded cm tn) ts) eqn:T; [|reflexivity].
      apply existsb_exists in T as (t & Ht & T).
      apply transcluded_hit in T.
      assert (existsb (hit cm tn) ts = true) as H'
        by (apply existsb_exists; eauto).
      congruence. }
    rewrite ?E, ?P, ?A, ?I, ?S, ?F. repeat split; lia.
Qed.

(** The progress line changes no counter, whether it is printed or
    raises. *)
Lemma same_counts_refl (s : state) : same_counts s s.
Proof. repeat split. Qed.

Lemma status_entry_same_counts (s0 : state) (w : string) :
  preserves (same_counts s0) (status_entry w).
Proof.
  intros s H. unfold status_entry.
  apply preserves_eval; [exact H|]. intros u _.
  destruct (truthy_int (usage_sum u)); [|exact H].
  apply preserves_eval; [exact H|]. intros pct _. exact H.
Qed.

Lemma print_stats_same_counts (s0 : state) :
  preserves (same_counts s0) print_stats.
Proof.
  intros s H. unfold print_stats.
  repeat (apply preserves_eval; [exact H|]; intros ? _). exact H.
Qed.

Lemma progress_same_counts (s0 : state) (i : Z) :
  preserves (same_counts s0) (progress i).
Proof.
  intros s H. unfold progress. destruct (i mod 10000 =? 0); [|exact H].
  apply preserves_and_then; [|apply print_stats_same_counts].
  apply preserves_for_each; [intros w; apply status_entry_same_counts|].
  exact H.
Qed.

Lemma scan_page_article (i : Z) (page : Page.t) (revision : Revision.t)
    (s : state) :
  shaped s -> evaluable page = true -> Page.revisions page = [revision] ->
  let s1 := close_revision
              (count_templates cm (Var.template_names s)
                 (ft (Revision.text revision))
                 (open_revision
                    (set_evaluated (Var.evaluated s + 1) (set_i (Some i) s)))) in
  scan_page cm ft (i, page) s = progress i s1 /\ shaped s1
  /\ Var.template_names s1 = Var.template_names s.
Proof.
  intros Hs He Hr s1. unfold scan_page. fold (evaluable page).
  rewrite He, Hr. cbn [for_each].
  set (s0 := set_evaluated _ _).
  assert (shaped s0) as Hs0 by exact Hs.
  destruct (scan_revision_refines revision s0 Hs0) as (-> & Hsh & Hn).
  repeat split; [apply Hsh | apply Hsh | exact Hn].
Qed.

Lemma scan_page_skipped (i : Z) (page : Page.t) (s : state) :
  evaluable page = false ->
  scan_page cm ft (i, page) s = progress i (set_i (Some i) s).
Proof. intros He. unfold scan_page. fold (evaluable page). now rewrite He. Qed.

(** C1, as the code has it: on a shaped state, each revision of an
    evaluated page adds one to [prob_wbc] exactly when one of its
    invocations matched a family, and adds one to [actual_wbc] exactly
    when one of its matched invocations was classified as transclusion,
    whatever the other invocations were classified as; a page whose
    matched invocations are all tracking-only adds nothing to
    [actual_wbc].  The same holds of an evaluated page with its one
    revision, and a page that is not evaluated changes neither total. *)
Theorem page_counted_probable_and_confirmed (s : state) :
  shaped s ->
  let tn := Var.template_names s in
  let some_match ts := exists t f, In t ts /\ matched tn f t in
  let some_transclusion ts :=
    exists t f, In t ts /\ matched tn f t /\ classified cm f t false in
  (forall revision : Revision.t,
     let ts := ft (Revision.text revision) in
     exists s', scan_revision cm ft revision s = Done s'
       /\ (some_match ts -> Var.prob_wbc s' = Var.prob_wbc s + 1)
       /\ (~ some_match ts -> Var.prob_wbc s' = Var.prob_wbc s)
       /\ (some_transclusion ts -> Var.actual_wbc s' = Var.actual_wbc s + 1)
       /\ (~ some_transclusion ts -> Var.actual_wbc s' = Var.actual_wbc s))
  /\ (forall (i : Z) (page : Page.t) (revision : Revision.t),
        evaluable page = true -> Page.revisions page = [revision] ->
        let ts := ft (Revision.text revision) in
        let s' := final (scan_page cm ft (i, page) s) in
        (some_match ts -> Var.prob_wbc s' = Var.prob_wbc s + 1)
        /\ (~ some_match ts -> Var.prob_wbc s' = Var.prob_wbc s)
        /\ (some_transclusion ts
            -> Var.actual_wbc s' = Var.actual_wbc s + 1)
        /\ (~ some_transclusion ts -> Var.actual_wbc s' = Var.actual_wbc s))
  /\ (forall (i : Z) (page : Page.t),
        evaluable page = false ->
        let s' := final (scan_page cm ft (i, page) s) in
        Var.prob_wbc s' = Var.prob_wbc s
        /\ Var.actual_wbc s' = Var.actual_wbc s).
Proof.
  intros Hs tn some_match some_transclusion.
  assert (dict_keys tn = families) as K by apply Hs.
  assert (forall ts (s0 s' : state),
            Var.prob_wbc s'
            = Var.prob_wbc s0 + (if existsb (hit cm tn) ts then 1 else 0) ->
            Var.actual_wbc s'
            = Var.actual_wbc s0
              + (if existsb (transcluded cm tn) ts then 1 else 0) ->
            (some_match ts -> Var.prob_wbc s' = Var.prob_wbc s0 + 1)
            /\ (~ some_match ts -> Var.prob_wbc s' = Var.prob_wbc s0)
            /\ (some_transclusion ts
                -> Var.actual_wbc s' = Var.actual_wbc s0 + 1)
            /\ (~ some_transclusion ts
                -> Var.actual_wbc s' = Var.actual_wbc s0)) as Words.
  { intros ts s0 s' P A.
    pose proof (exists_hit tn ts K) as H.
    pose proof (exists_transcluded tn ts K) as T.
    fold (some_match ts) in H. fold (some_transclusion ts) in T.
    destruct (existsb (hit cm tn) ts);
      destruct (existsb (transcluded cm tn) ts);
      repeat split; intros X; try lia;
      try (apply H in X; discriminate); try (apply T in X; discriminate);
      try (exfalso; apply X, H; reflexivity);
      try (exfalso; apply X, T; reflexivity). }
  split; [|split].
  - intros revision ts.
    destruct (scan_revision_refines revision s Hs) as (E & _ & _).
    eexists. split; [exact E|].
    destruct (close_revision_totals tn ts s) as (P & A & _).
    now apply Words.
  - intros i page revision He Hr ts s'.
    destruct (scan_page_article i page revision s Hs He Hr) as (E & _ & _).
    subst s'. rewrite E.
    set (s0 := set_evaluated _ _).
    destruct (close_revision_totals tn ts s0) as (P & A & _).
    fold ts. set (s1 := close_revision _) in *.
    destruct (progress_same_counts s1 i s1 (same_counts_refl s1))
      as (_ & _ & _ & P' & A' & _).
    apply (Words ts s); [rewrite P', P | rewrite A', A]; reflexivity.
  - intros i page He s'. subst s'. rewrite (scan_page_skipped i page s He).
    set (s1 := set_i _ _).
    destruct (progress_same_counts s1 i s1 (same_counts_refl s1))
      as (_ & _ & _ & P' & A' & _).
    split; [rewrite P' | rewrite A']; reflexivity.
Qed.

End Scan.

(** ** The counters only grow *)

Section Counters.

Variable cm : string -> string -> list string.
Variable ft : option string -> list Template.t.








End Counters.

(** ** Set-up, progress lines and report *)

Lemma append_assoc (a b c : string) : (a +:+ b) +:+ c = a +:+ (b +:+ c).
Proof.
  induction a as [|x a IH]; [reflexivity|].
  change (String x ((a +:+ b) +:+ c) = String x (a +:+ (b +:+ c))).
  now rewrite IH.
Qed.

Lemma dict_set_same {V} (k : string) (v : V) (d : dict V) :
  dict_get k d = Some v -> dict_set k v d = d.
Proof.
  induction d as [|[k' w] d IH]; cbn; [discriminate|].
  destruct (String.eqb_spec k' k) as [->|N].
  - now intros [= ->].
  - intros H. now rewrite IH.
Qed.

Lemma dict_set_set {V} (k : string) (v w : V) (d : dict V) :
  dict_set k v (dict_set k w d) = dict_set k v d.
Proof.
  induction d as [|[k' x] d IH]; cbn.
  - now rewrite String.eqb_refl.
  - destruct (String.eqb_spec k' k) as [->|N]; cbn.
    + now rewrite String.eqb_refl.
    + destruct (String.eqb_spec k' k); [contradiction | now rewrite IH].
Qed.

Lemma shaped_usage (d : dict usage) :
  dict_keys d = families ->
  exists u1 u2 u3 u4 u5,
    d = [("cd", u1); ("ac", u2); ("tb", u3); ("bd", u4); ("el", u5)].
Proof.
  destruct d as [|[k1 u1] [|[k2 u2] [|[k3 u3] [|[k4 u4] [|[k5 u5] [|]]]]]];
    cbn; intros [=]; subst. now exists u1, u2, u3, u4, u5.
Qed.

Lemma status_entry_ok (w : string) (u : usage) (s : state) :
  dict_get w (Var.wikidata_usage s) = Some u ->
  status_entry w s = Done (set_status (Var.status s ++ [status_of w u]) s).
Proof.
  intros H. unfold status_entry, dict_getitem, status_of, truthy_int, truediv.
  rewrite H. cbn [eval]. now destruct (usage_sum u =? 0).
Qed.

Lemma status_loop_ok (s : state) :
  shaped s ->
  exists st, for_each (dict_keys (Var.wikidata_usage s)) status_entry s
             = Done (set_status st s).
Proof.
  intros [U _]. destruct (shaped_usage _ U) as (u1 & u2 & u3 & u4 & u5 & E).
  rewrite E. cbn [dict_keys List.map fst for_each].
  repeat (erewrite status_entry_ok
            by (state_simpl; rewrite E; reflexivity);
          cbn [and_then]; state_simpl).
  eexists. reflexivity.
Qed.

Lemma print_stats_raises (s : state) (i : Z) :
  Var.i s = Some i -> Var.evaluated s = 0 ->
  print_stats s = Abort ZeroDivisionError s.
Proof. intros I E. unfold print_stats, truediv. now rewrite I, E. Qed.

Lemma print_stats_unbound (s : state) :
  Var.i s = None -> print_stats s = Abort UnboundLocalError s.
Proof. intros I. unfold print_stats. now rewrite I. Qed.

Section Run.

Variable sg : string -> string -> api_page.
Variable cm : string -> string -> list string.
Variable ft : option string -> list Template.t.

Lemma setup_seeds (lang t : string) (names : list string) (s : state)
    (known : gset string) :
  dict_get t (Var.template_names s) = Some known ->
  exists known',
    for_each names
      (fun t_name s =>
         eval (dict_getitem t (Var.template_names s)) s
           (fun known : gset string =>
              Done (set_template_names
                      (dict_set t (known ∪ build_template_list sg lang t_name)
                         (Var.template_names s)) s))) s
    = Done (set_template_names (dict_set t known' (Var.template_names s)) s).
Proof.
  revert s known. induction names as [|n names IH]; intros s known H;
    cbn [for_each].
  - exists known. rewrite (dict_set_same _ _ _ H). now destruct s.
  - unfold dict_getitem at 1. rewrite H. cbn [eval and_then].
    edestruct (IH (set_template_names
                     (dict_set t (known ∪ build_template_list sg lang n)
                        (Var.template_names s)) s)) as [known' ->].
    { state_simpl. apply dict_get_set. }
    exists known'. state_simpl. now rewrite dict_set_set.
Qed.

Lemma setup_family_en (t : string) (fam : family) (s : state) :
  dict_get t (main_templates cm) = Some fam ->
  exists known,
    setup_family sg cm "en" t s
    = Done (set_template_names (dict_set t known (Var.template_names s))
              (set_wikidata_usage
                 (dict_set t (mkUsage 0 0) (Var.wikidata_usage s)) s)).
Proof.
  intros H. unfold setup_family, dict_getitem. rewrite H.
  cbn [mbind result_bind seeds String.eqb Ascii.eqb Bool.eqb eval].
  edestruct (setup_seeds "en" t (en fam)) as [known ->].
  { state_simpl. apply dict_get_set. }
  exists known. state_simpl. now rewrite dict_set_set.
Qed.

(** Lines 100-109 on the English wiki: zeroed counters, one name set
    per family, one line printed per family. *)
Lemma setup_en (s : state) :
  exists k1 k2 k3 k4 k5 : gset string,
    setup sg cm "en" s
    = Done (set_stdout
              (Var.stdout s
               ++ [NamesLine "cd" (Z.of_nat (size k1));
                   NamesLine "ac" (Z.of_nat (size k2));
                   NamesLine "tb" (Z.of_nat (size k3));
                   NamesLine "bd" (Z.of_nat (size k4));
                   NamesLine "el" (Z.of_nat (size k5))])%list
              (set_template_names
                 [("cd", k1); ("ac", k2); ("tb", k3); ("bd", k4); ("el", k5)]
                 (set_wikidata_usage no_usage s))).
Proof.
  unfold setup. cbn [dict_keys main_templates List.map fst for_each].
  edestruct (setup_family_en "cd") as [k1 ->]; [reflexivity|].
  cbn [and_then]. state_simpl.
  edestruct (setup_family_en "ac") as [k2 ->]; [reflexivity|].
  cbn [and_then]. state_simpl.
  edestruct (setup_family_en "tb") as [k3 ->]; [reflexivity|].
  cbn [and_then]. state_simpl.
  edestruct (setup_family_en "bd") as [k4 ->]; [reflexivity|].
  cbn [and_then]. state_simpl.
  edestruct (setup_family_en "el") as [k5 ->]; [reflexivity|].
  cbn [and_then]. state_simpl.
  exists k1, k2, k3, k4, k5.
  unfold print_names, dict_getitem.
  repeat (state_simpl;
          cbn [dict_set dict_get String.eqb Ascii.eqb Bool.eqb eval and_then
               dict_keys List.map fst for_each]).
  f_equal. apply state_ext; state_simpl; try reflexivity.
  now rewrite <- !app_assoc.
Qed.

Lemma setup_family_other (lang t : string) (fam : family) (s : state) :
  dict_get t (main_templates cm) = Some fam -> lang <> "en" ->
  exists e s', setup_family sg cm lang t s = Abort e s'.
Proof.
  intros H N. unfold setup_family, dict_getitem. rewrite H.
  cbn [mbind result_bind]. unfold seeds.
  destruct (String.eqb_spec lang "en") as [E|_]; [contradiction|].
  destruct (String.eqb lang "func"); cbn [eval]; eauto.
Qed.

Lemma setup_other_language (lang : string) (s : state) :
  lang <> "en" -> exists e s', setup sg cm lang s = Abort e s'.
Proof.
  intros N. unfold setup. cbn [dict_keys main_templates List.map fst for_each].
  edestruct (setup_family_other lang "cd") as (e & s' & ->);
    [reflexivity | exact N |].
  cbn [and_then]. eauto.
Qed.

Lemma setup_done (lang : string) (s s' : state) :
  setup sg cm lang s = Done s' ->
  lang = "en" /\ shaped s' /\ Var.wikidata_usage s' = no_usage
  /\ Var.fout s' = Var.fout s /\ Var.i s' = Var.i s
  /\ existsb is_stats (Var.stdout s') = existsb is_stats (Var.stdout s).
Proof.
  intros H. destruct (string_dec lang "en") as [->|N].
  - destruct (setup_en s) as (k1 & k2 & k3 & k4 & k5 & E).
    rewrite E in H. injection H as <-. state_simpl.
    repeat split. rewrite existsb_app. cbn. apply orb_false_r.
  - destruct (setup_other_language lang s N) as (e & s0 & E). congruence.
Qed.

End Run.

Section Whole.

Variable sg : string -> string -> api_page.
Variable cm : string -> string -> list string.
Variable ft : option string -> list Template.t.

Lemma scan_page_shaped (ip : Z * Page.t) :
  preserves shaped (scan_page cm ft ip).
Proof.
  destruct ip as [i page]. intros s H. unfold scan_page.
  apply preserves_and_then.
  - destruct (_ && _)%bool; [|exact H].
    apply preserves_for_each; [|exact H].
    intros revision s' H'.
    now destruct (scan_revision_refines cm ft revision s' H') as (-> & Hsh & _).
  - intros s' [U N].
    destruct (progress_same_counts s' i s' (same_counts_refl s'))
      as (U' & N' & _).
    split; congruence.
Qed.

Lemma scan_shaped (dump : list Page.t) (s : state) :
  shaped s -> shaped (final (scan cm ft dump s)).
Proof.
  intros H. unfold scan.
  apply preserves_for_each; [apply scan_page_shaped | exact H].
Qed.

Lemma report_row_ok (w : string) (u : usage) (s : state) :
  dict_get w (Var.wikidata_usage s) = Some u ->
  report_row w s
  = Done (write (w +:+ Str.TAB +:+ Str.of_int (transclusion u) +:+ Str.TAB
                   +:+ Str.of_int (tracking u) +:+ Str.NL)
            (set_status (Var.status s ++ [status_of w u]) s)).
Proof.
  intros H. unfold report_row. rewrite (status_entry_ok w u s H).
  cbn [and_then]. unfold dict_getitem. state_simpl. now rewrite H.
Qed.

(** Lines 148-160: the file is written, then the summary is printed. *)
Lemma report_steps (s : state) :
  shaped s ->
  exists s1, report s = print_stats s1
    /\ Var.evaluated s1 = Var.evaluated s
    /\ Var.i s1 = Var.i s
    /\ Var.stdout s1 = Var.stdout s
    /\ Var.fout s1 = Some (report_text s).
Proof.
  intros [U _]. destruct (shaped_usage _ U) as (u1 & u2 & u3 & u4 & u5 & E).
  unfold report. state_simpl. rewrite E.
  cbn [dict_keys List.map fst for_each].
  repeat (erewrite report_row_ok
            by (state_simpl; rewrite E; reflexivity);
          cbn [and_then]).
  eexists. split; [reflexivity|]. state_simpl.
  do 3 (split; [reflexivity|]).
  unfold report_text, tsv_line. rewrite E.
  cbn [List.map String.concat fst snd default from_option]. unfold id.
  rewrite !append_assoc. reflexivity.
Qed.

(** Lines 148-160 once more, with all the report leaves alone. *)
Lemma report_steps_full (s : state) :
  shaped s ->
  exists s1, report s = print_stats s1
    /\ Var.wikidata_usage s1 = Var.wikidata_usage s
    /\ Var.evaluated s1 = Var.evaluated s
    /\ Var.prob_wbc s1 = Var.prob_wbc s
    /\ Var.actual_wbc s1 = Var.actual_wbc s
    /\ Var.i s1 = Var.i s
    /\ Var.stdout s1 = Var.stdout s
    /\ Var.fout s1 = Some (report_text s).
Proof.
  intros [U _]. destruct (shaped_usage _ U) as (u1 & u2 & u3 & u4 & u5 & E).
  unfold report. state_simpl. rewrite E.
  cbn [dict_keys List.map fst for_each].
  repeat (erewrite report_row_ok
            by (state_simpl; rewrite E; reflexivity);
          cbn [and_then]).
  eexists. split; [reflexivity|]. state_simpl.
  split; [now rewrite E|]. do 5 (split; [reflexivity|]).
  unfold report_text, tsv_line. rewrite E.
  cbn [List.map String.concat fst snd default from_option]. unfold id.
  rewrite !append_assoc. reflexivity.
Qed.

Lemma report_text_same (s s' : state) :
  Var.wikidata_usage s' = Var.wikidata_usage s ->
  Var.evaluated s' = Var.evaluated s ->
  Var.prob_wbc s' = Var.prob_wbc s ->
  Var.actual_wbc s' = Var.actual_wbc s ->
  report_text s' = report_text s.
Proof. unfold report_text. now intros -> -> -> ->. Qed.

(** Pages that are not evaluated, before the first progress line. *)
Lemma scan_skipped_quiet (pages : list Page.t) (k : Z) (s : state) :
  Forall (fun page => evaluable page = false) pages ->
  1 <= k -> k + Z.of_nat (length pages) <= 10000 ->
  for_each (enumerate k pages) (scan_page cm ft) s
  = Done (match pages with
          | [] => s
          | _ => set_i (Some (k + Z.of_nat (length pages) - 1)) s
          end).
Proof.
  intros H. revert k s. induction H as [|page pages Hp _ IH]; intros k s K L;
    cbn [enumerate for_each]; [reflexivity|].
  cbn [length] in L. rewrite (scan_page_skipped cm ft k page s Hp).
  unfold progress.
  assert ((k mod 10000 =? 0) = false) as ->
    by (apply Z.eqb_neq; rewrite Z.mod_small; lia).
  cbn [and_then]. rewrite IH by lia.
  destruct pages as [|page' pages']; f_equal; apply state_ext; state_simpl;
    try reflexivity; cbn [length]; f_equal; lia.
Qed.

(** The progress line of page 10000 when no page was evaluated. *)
Lemma progress_raises (s : state) :
  shaped s -> Var.evaluated s = 0 ->
  exists st,
    progress 10000 (set_i (Some 10000) s)
    = Abort ZeroDivisionError (set_status st (set_i (Some 10000) s)).
Proof.
  intros Hs E. unfold progress. cbn [Z.modulo Z.eqb].
  change (10000 mod 10000 =? 0) with true. cbv iota.
  destruct (status_loop_ok (set_status [] (set_i (Some 10000) s)) Hs)
    as [st ->].
  cbn [and_then]. exists st.
  erewrite print_stats_raises by (state_simpl; first [exact E | reflexivity]).
  reflexivity.
Qed.

Lemma scan_skipped_boundary (pages : list Page.t) (k : Z) (s : state) :
  Forall (fun page => evaluable page = false) pages ->
  shaped s -> Var.evaluated s = 0 ->
  1 <= k <= 10000 -> 10000 < k + Z.of_nat (length pages) ->
  exists st,
    for_each (enumerate k pages) (scan_page cm ft) s
    = Abort ZeroDivisionError (set_status st (set_i (Some 10000) s)).
Proof.
  intros H. revert k s. induction H as [|page pages Hp _ IH];
    intros k s Hs E K L; cbn [length] in L; [cbn in L; lia|].
  cbn [enumerate for_each].
  rewrite (scan_page_skipped cm ft k page s Hp).
  destruct (Z.eq_dec k 10000) as [->|N].
  - destruct (progress_raises s Hs E) as [st ->]. cbn [and_then]. eauto.
  - unfold progress.
    assert ((k mod 10000 =? 0) = false) as ->
      by (apply Z.eqb_neq; rewrite Z.mod_small; lia).
    cbn [and_then].
    destruct (IH (k + 1) (set_i (Some k) s)) as [st ->];
      [exact Hs | exact E | lia | lia |].
    exists st. reflexivity.
Qed.

(** C8: when the scan reaches the end of the dump, the output file
    holds the header [type], [transclusion], [tracking], the row of the
    evaluated total, the [wbc_estimate] row with [actual_wbc] and
    [prob_wbc - actual_wbc], and then one row per family, in the order
    of the families, with its transclusion count and its tracking count;
    every row is tab-separated and ends a line. *)
Theorem report_holds_header_totals_and_families
    (lang : string) (dump : list Page.t) (s : state) :
  setup sg cm lang initial >>> scan cm ft dump = Done s ->
  Var.fout (final (main sg cm ft lang dump))
  = Some (tsv_line ["type"; "transclusion"; "tracking"]
          +:+ tsv_line ["total:" +:+ Str.of_int (Var.evaluated s); ""; ""]
          +:+ tsv_line ["wbc_estimate"; Str.of_int (Var.actual_wbc s);
                        Str.of_int (Var.prob_wbc s - Var.actual_wbc s)]
          +:+ String.concat ""
                (List.map
                   (fun wu => tsv_line [fst wu;
                                        Str.of_int (transclusion (snd wu));
                                        Str.of_int (tracking (snd wu))])
                   (Var.wikidata_usage s)))
  /\ dict_keys (Var.wikidata_usage s) = families.
Proof.
  intros H. unfold main. rewrite H. cbn [and_then].
  assert (shaped s) as Hs.
  { destruct (setup sg cm lang initial) as [s0|] eqn:E0; [|discriminate].
    cbn [and_then] in H. apply setup_done in E0 as (_ & Hs0 & _).
    pose proof (scan_shaped dump s0 Hs0) as Hs. now rewrite H in Hs. }
  split; [|apply Hs].
  destruct (report_steps s Hs) as (s1 & -> & _ & _ & _ & F).
  destruct (print_stats_same_counts s1 s1 (same_counts_refl s1))
    as (_ & _ & _ & _ & _ & _ & ->).
  exact F.
Qed.

(** C9, as the code has it: on the English wiki, when the dump is not
    empty and none of its first 10000 pages is evaluated, [main] ends
    with a division by zero and prints no statistics line: at page
    10000, before any report is written, when the dump has that many
    pages, and otherwise at the end of the dump, once the whole report
    file is written. *)
Theorem statistics_line_divides_by_zero (dump : list Page.t) :
  dump <> [] ->
  Forall (fun page => evaluable page = false) (firstn (Z.to_nat 10000) dump) ->
  exists s,
    main sg cm ft "en" dump = Abort ZeroDivisionError s
    /\ Var.evaluated s = 0
    /\ existsb is_stats (Var.stdout s) = false
    /\ (Z.of_nat (length dump) < 10000 ->
        Var.i s = Some (Z.of_nat (length dump))
        /\ Var.fout s = Some (report_text s))
    /\ (10000 <= Z.of_nat (length dump) ->
        Var.i s = Some 10000 /\ Var.fout s = None).
Proof.
  intros Hne Hskip. unfold main.
  destruct (setup_en sg cm initial) as (k1 & k2 & k3 & k4 & k5 & ->).
  cbn [and_then]. set (s0 := set_stdout _ _).
  assert (shaped s0) as Hs0 by (split; reflexivity).
  unfold scan. set (s1 := set_actual_wbc _ _).
  assert (shaped s1) as Hs1 by exact Hs0.
  destruct (Z.lt_ge_cases (Z.of_nat (length dump)) 10000) as [Short|Long].
  - rewrite firstn_all2 in Hskip by lia.
    rewrite (scan_skipped_quiet dump 1 s1 Hskip) by lia.
    destruct dump as [|page dump']; [contradiction|].
    cbn [and_then]. set (s2 := set_i _ s1).
    destruct (report_steps_full s2 Hs1) as (s3 & -> & U & E & P & A & I & O & F).
    exists s3. rewrite (print_stats_raises s3 _ I E).
    split; [reflexivity|]. split; [exact E|]. split; [rewrite O; reflexivity|].
    split.
    + intros _. split.
      * rewrite I. unfold s2. state_simpl. f_equal. lia.
      * rewrite F. f_equal. symmetry. now apply report_text_same.
    + intros Long. lia.
  - rewrite <- (firstn_skipn (Z.to_nat 10000) dump), enumerate_app, for_each_app.
    destruct (scan_skipped_boundary (firstn (Z.to_nat 10000) dump) 1 s1
                Hskip Hs1 eq_refl)
      as [st ->]; [lia | rewrite length_firstn; lia |].
    cbn [and_then]. eexists. split; [reflexivity|].
    state_simpl. split; [reflexivity|]. split; [reflexivity|].
    rewrite firstn_skipn. split; [lia|]. intros _. split; reflexivity.
Qed.

End Whole.

(** ** A page with one invocation, and the three-page dump *)

Section Pages.

Variable cm : string -> string -> list string.
Variable ft : option string -> list Template.t.

Lemma verdict_matched (tn : dict (gset string)) (f : string) (t : Template.t)
    (known : gset string) (fam : family) (b : bool) :
  dict_get f tn = Some known ->
  standardize_template_names (Template.name t) ∈ known ->
  dict_get f (main_templates cm) = Some fam -> func fam t = Ok b ->
  verdict cm tn f t = Some b.
Proof.
  intros K M F B. apply verdict_some. split; [exists known | exists fam]; auto.
Qed.

Lemma verdict_unmatched (tn : dict (gset string)) (f : string)
    (t : Template.t) (known : gset string) :
  dict_get f tn = Some known ->
  standardize_template_names (Template.name t) ∉ known ->
  verdict cm tn f t = None.
Proof.
  intros K M. unfold verdict. rewrite K. now rewrite bool_decide_eq_false_2.
Qed.

Lemma usage_count (f : string) (v : option bool) (s : state) :
  Var.wikidata_usage (count f v s)
  = match v with
    | Some b => bump f b (Var.wikidata_usage s)
    | None => Var.wikidata_usage s
    end.
Proof. now destruct v as [[]|]. Qed.

Lemma usage_count_families (tn : dict (gset string)) (t : Template.t)
    (fs : list string) (s : state) :
  Var.wikidata_usage
    (fold_left (fun s f => count f (verdict cm tn f t) s) fs s)
  = fold_left (fun d f => match verdict cm tn f t with
                          | Some b => bump f b d
                          | None => d
                          end) fs (Var.wikidata_usage s).
Proof.
  revert s. induction fs as [|f fs IH]; intros s; cbn [fold_left];
    [reflexivity|].
  now rewrite IH, usage_count.
Qed.

Lemma usage_close_revision (s : state) :
  Var.wikidata_usage (close_revision s) = Var.wikidata_usage s.
Proof.
  unfold close_revision. destruct (Var.wbc s) as [[]|]; try reflexivity.
  state_simpl. now destruct (Var.tracking_only s) as [[]|].
Qed.

(** An evaluated page whose one revision holds one invocation. *)
Lemma scan_page_one_template (i : Z) (page : Page.t) (revision : Revision.t)
    (t : Template.t) (s : state) :
  shaped s -> evaluable page = true -> Page.revisions page = [revision] ->
  ft (Revision.text revision) = [t] -> (i mod 10000 =? 0) = false ->
  let tn := Var.template_names s in
  exists s', scan_page cm ft (i, page) s = Done s'
    /\ shaped s' /\ Var.template_names s' = tn
    /\ Var.evaluated s' = Var.evaluated s + 1
    /\ Var.prob_wbc s' = Var.prob_wbc s + (if hit cm tn t then 1 else 0)
    /\ Var.actual_wbc s'
       = Var.actual_wbc s + (if transcluded cm tn t then 1 else 0)
    /\ Var.wikidata_usage s'
       = fold_left (fun d f => match verdict cm tn f t with
                               | Some b => bump f b d
                               | None => d
                               end) families (Var.wikidata_usage s).
Proof.
  intros Hs He Hr Ht Hi tn.
  destruct (scan_page_article cm ft i page revision s Hs He Hr)
    as (E & Hsh & Hn).
  rewrite E, Ht in *. unfold progress. rewrite Hi.
  eexists. split; [reflexivity|]. split; [exact Hsh|]. split; [exact Hn|].
  set (s0 := set_evaluated _ _) in *.
  destruct (close_revision_totals cm tn [t] s0) as (P & A & V & _).
  cbn [existsb] in P, A. rewrite orb_false_r in P, A.
  fold tn. rewrite P, A, V. repeat split.
  rewrite usage_close_revision.
  apply (usage_count_families tn t families (open_revision s0)).
Qed.

(** C5: the scan of the three pages [{{Coord|51.5|-0.1}}],
    [{{Authority control|VIAF=1|LCCN=2}}] and
    [{{Authority control|QID=Q1}}], articles that are no redirects, with
    [coord] a name of family [cd] only and [authority_control] a name of
    family [ac] only, ends with cd.tracking = 1, ac.tracking = 1,
    ac.transclusion = 1, every other counter 0, evaluated = 3,
    prob_wbc = 3 and actual_wbc = 1. *)
Theorem three_page_dump_counts (cdS acS tbS bdS elS : gset string)
    (s0 : state) :
  ft (Some "{{Coord|51.5|-0.1}}")
  = [Template.mk "Coord" [Param.mk "1" "51.5"; Param.mk "2" "-0.1"]] ->
  ft (Some "{{Authority control|VIAF=1|LCCN=2}}")
  = [Template.mk "Authority control"
       [Param.mk "VIAF" "1"; Param.mk "LCCN" "2"]] ->
  ft (Some "{{Authority control|QID=Q1}}")
  = [Template.mk "Authority control" [Param.mk "QID" "Q1"]] ->
  "coord" ∈ cdS -> "authority_control" ∈ acS ->
  "coord" ∉ acS ∪ tbS ∪ bdS ∪ elS ->
  "authority_control" ∉ cdS ∪ tbS ∪ bdS ∪ elS ->
  Var.wikidata_usage s0 = no_usage ->
  Var.template_names s0
  = [("cd", cdS); ("ac", acS); ("tb", tbS); ("bd", bdS); ("el", elS)] ->
  exists s,
    scan cm ft [Demo.article "{{Coord|51.5|-0.1}}";
                Demo.article "{{Authority control|VIAF=1|LCCN=2}}";
                Demo.article "{{Authority control|QID=Q1}}"] s0 = Done s
    /\ Var.wikidata_usage s
       = [("cd", mkUsage 1 0); ("ac", mkUsage 1 1); ("tb", mkUsage 0 0);
          ("bd", mkUsage 0 0); ("el", mkUsage 0 0)]
    /\ Var.evaluated s = 3 /\ Var.prob_wbc s = 3 /\ Var.actual_wbc s = 1.
Proof.
  intros FA FB FC Hcd Hac Ncd Nac U0 N0.
  set (tn := [("cd", cdS); ("ac", acS); ("tb", tbS); ("bd", bdS); ("el", elS)])
    in *.
  set (tA := Template.mk "Coord" _) in *.
  set (tB := Template.mk "Authority control" [_; _]) in *.
  set (tC := Template.mk "Authority control" [_]) in *.
  assert (standardize_template_names (Template.name tA) = "coord") as NA
    by reflexivity.
  assert (standardize_template_names (Template.name tB) = "authority_control")
    as NB by reflexivity.
  assert (standardize_template_names (Template.name tC) = "authority_control")
    as NC by reflexivity.
  assert (verdict cm tn "cd" tA = Some true
          /\ verdict cm tn "ac" tA = None /\ verdict cm tn "tb" tA = None
          /\ verdict cm tn "bd" tA = None /\ verdict cm tn "el" tA = None)
    as (A1 & A2 & A3 & A4 & A5).
  { repeat split;
      [ eapply verdict_matched; [reflexivity | rewrite NA; exact Hcd
                                | reflexivity | reflexivity]
      | eapply verdict_unmatched; [reflexivity | rewrite NA; set_solver] .. ]. }
  assert (forall t b,
            standardize_template_names (Template.name t) = "authority_control" ->
            ac t = Ok b ->
            verdict cm tn "cd" t = None
            /\ verdict cm tn "ac" t = Some b /\ verdict cm tn "tb" t = None
            /\ verdict cm tn "bd" t = None /\ verdict cm tn "el" t = None)
    as AC.
  { intros t b Nt Bt. repeat split;
      try (eapply verdict_unmatched; [reflexivity | rewrite Nt; set_solver]).
    eapply verdict_matched; [reflexivity | rewrite Nt; exact Hac
                            | reflexivity | exact Bt]. }
  destruct (AC tB true NB eq_refl) as (B1 & B2 & B3 & B4 & B5).
  destruct (AC tC false NC eq_refl) as (C1 & C2 & C3 & C4 & C5).
  unfold scan. cbn [enumerate for_each].
  change (1 + 1 + 1) with 3. change (1 + 1) with 2.
  set (s1 := set_actual_wbc _ _).
  assert (shaped s1) as Hs1
    by (unfold shaped, s1; state_simpl; rewrite U0, N0; split; reflexivity).
  destruct (scan_page_one_template 1 (Demo.article "{{Coord|51.5|-0.1}}")
              _ tA s1 Hs1 eq_refl eq_refl FA eq_refl)
    as (sA & -> & HsA & TA & EA & PA & AA & UA).
  cbn [and_then].
  destruct (scan_page_one_template 2
              (Demo.article "{{Authority control|VIAF=1|LCCN=2}}")
              _ tB sA HsA eq_refl eq_refl FB eq_refl)
    as (sB & -> & HsB & TB & EB & PB & AB & UB).
  cbn [and_then].
  destruct (scan_page_one_template 3
              (Demo.article "{{Authority control|QID=Q1}}")
              _ tC sB HsB eq_refl eq_refl FC eq_refl)
    as (sC & -> & HsC & TC & EC & PC & AC' & UC).
  cbn [and_then].
  assert (Var.template_names s1 = tn) as T1 by exact N0.
  assert (Var.wikidata_usage s1 = no_usage) as U1 by exact U0.
  rewrite T1 in TA, PA, AA, UA. rewrite TA in TB, PB, AB, UB.
  rewrite TB in PC, AC', UC.
  unfold hit, transcluded in PA, AA, PB, AB, PC, AC'.
  cbn [existsb families fold_left] in PA, AA, UA, PB, AB, UB, PC, AC', UC.
  rewrite A1, A2, A3, A4, A5 in PA, AA, UA.
  rewrite B1, B2, B3, B4, B5 in PB, AB, UB.
  rewrite C1, C2, C3, C4, C5 in PC, AC', UC.
  cbn [orb] in PA, AA, PB, AB, PC, AC'.
  exists sC. split; [reflexivity|].
  rewrite UC, UB, UA, U1, EC, EB, EA, PC, PB, PA, AC', AB, AA.
  repeat split.
Qed.

End Pages.

(** ** One invocation, family by family *)






Section Invocation.

Variable cm : string -> string -> list string.
Variable ft : option string -> list Template.t.


End Invocation.

(** ** The claims on the small wiki *)

(** C1 holds on the small wiki: an article read from a shaped state
    whose invocations are a tracking-only [Coord] and a transclusion
    [Authority control] adds one to [actual_wbc]. *)
Lemma mixed_article_is_confirmed :
  shaped Demo.start
  /\ Var.actual_wbc
       (final (scan_page Demo.categorymembers Wikitext.filter_templates
                 (1, Demo.article Demo.mixed_text) Demo.start))
     = Var.actual_wbc Demo.start + 1.
Proof.
  assert (shaped Demo.start) as Hs by (split; reflexivity).
  split; [exact Hs|].
  refine (proj1 (proj2 (proj2
            (proj1 (proj2 (page_counted_probable_and_confirmed
                             Demo.categorymembers Wikitext.filter_templates
                             Demo.start Hs))
               1 (Demo.article Demo.mixed_text)
               (Revision.mk (Some Demo.mixed_text)) eq_refl eq_refl))) _).
  exists (Template.mk "Authority control" [Param.mk "QID" "Q1"]), "ac".
  split; [right; left; reflexivity|]. split.
  - exists {[ "authority_control" ]}. split; [reflexivity|].
    now apply elem_of_singleton.
  - eexists. split; reflexivity.
Defined.

(** C1 fails as stated: the article below has a matched invocation that
    family [cd] classifies as tracking-only, and the page still adds one
    to [actual_wbc], because another invocation is a transclusion. *)
Lemma tracking_invocation_does_not_suppress_confirmation :
  let page := Demo.article Demo.mixed_text in
  let coord_use :=
    Template.mk "Coord" [Param.mk "1" "51.5"; Param.mk "2" "-0.1"] in
  let s' := final (scan_page Demo.categorymembers Wikitext.filter_templates
                     (1, page) Demo.start) in
  evaluable page = true
  /\ In coord_use (Wikitext.filter_templates (Some Demo.mixed_text))
  /\ matched Demo.names "cd" coord_use
  /\ classified Demo.categorymembers "cd" coord_use true
  /\ Var.actual_wbc s' = Var.actual_wbc Demo.start + 1.
Proof.
  cbv zeta. split; [reflexivity|]. split; [left; reflexivity|]. split.
  - exists {[ "coord" ]}. split; [reflexivity|]. now apply elem_of_singleton.
  - split; [eexists; split; reflexivity|]. vm_compute. reflexivity.
Qed.

(** C5 holds on the small wiki, with the flat reading of wikitext. *)
Lemma three_page_dump_counts_on_demo :
  exists s,
    scan Demo.categorymembers Wikitext.filter_templates Demo.three_pages
      Demo.start = Done s
    /\ Var.wikidata_usage s
       = [("cd", mkUsage 1 0); ("ac", mkUsage 1 1); ("tb", mkUsage 0 0);
          ("bd", mkUsage 0 0); ("el", mkUsage 0 0)]
    /\ Var.evaluated s = 3 /\ Var.prob_wbc s = 3 /\ Var.actual_wbc s = 1.
Proof.
  apply (three_page_dump_counts Demo.categorymembers Wikitext.filter_templates
           {[ "coord" ]} {[ "authority_control" ]} ∅ ∅ ∅ Demo.start);
    try reflexivity; try (now apply elem_of_singleton);
    rewrite !elem_of_union, elem_of_singleton, !elem_of_empty;
    intros [[[[=] | []] | []] | []].
Defined.

(** C8 holds on the small wiki: the report of the three pages. *)
Lemma report_of_three_pages :
  setup Demo.session_get Demo.categorymembers "en" initial
  >>> scan Demo.categorymembers Wikitext.filter_templates Demo.three_pages
  = Done Demo.scanned
  /\ Var.fout (final (Demo.run_main Demo.three_pages))
     = Some (report_text Demo.scanned).
Proof.
  assert (setup Demo.session_get Demo.categorymembers "en" initial
          >>> scan Demo.categorymembers Wikitext.filter_templates
                Demo.three_pages
          = Done Demo.scanned) as H by (vm_compute; reflexivity).
  split; [exact H|].
  exact (proj1 (report_holds_header_totals_and_families
                  Demo.session_get Demo.categorymembers
                  Wikitext.filter_templates "en" Demo.three_pages
                  Demo.scanned H)).
Defined.


(** C9 holds on the small wiki: a dump of one talk page. *)
Lemma talk_page_dump_divides_by_zero :
  exists s, Demo.run_main [Demo.talk_page] = Abort ZeroDivisionError s
            /\ Var.evaluated s = 0.
Proof.
  destruct (statistics_line_divides_by_zero
              Demo.session_get Demo.categorymembers Wikitext.filter_templates
              [Demo.talk_page])
    as (s & E & Z & _).
  - discriminate.
  - rewrite firstn_all2 by (cbn [length]; lia). repeat constructor.
  - exists s. split; assumption.
Defined.

(** C9 fails as stated on the empty dump: the end of the dump is
    reached with [evaluated] at 0, and [main] ends on the unbound loop
    variable [i], not on a division by zero. *)
Lemma empty_dump_raises_unbound_local :
  exists s, Demo.run_main [] = Abort UnboundLocalError s
            /\ Var.evaluated s = 0 /\ Var.i s = None
            /\ Demo.run_main [] <> Abort ZeroDivisionError s.
Proof.
  eexists. split; [vm_compute; reflexivity|].
  split; [reflexivity|]. split; [reflexivity|]. vm_compute. discriminate.
Qed.

(** * Further properties *)

(** ** Normalised names *)

Lemma chars_map (f : ascii -> ascii) (s : string) :
  chars (Str.map f s) = List.map f (chars s).
Proof.
  unfold chars. induction s as [|c s IH]; cbn; [reflexivity|].
  f_equal. exact IH.
Qed.

Lemma normal_char_no_space (c : ascii) :
  underscore (Str.lower_char c) <> " "%char.
Proof. each_char c. Qed.

Lemma normal_char_lower (c : ascii) :
  Str.lower_char (underscore (Str.lower_char c)) = underscore (Str.lower_char c).
Proof. each_char c. Qed.

Lemma standardize_twice (s : string) :
  standardize_template_names (standardize_template_names s)
  = standardize_template_names s.
Proof.
  rewrite !standardize_as_map. unfold Str.strip.
  rewrite (strip_map Str.isspace _ normal_char_keeps_space).
  rewrite map_map_chars. apply map_ext_chars, normal_char_idem.
Qed.

(** X1: a normalised template name holds no space, is in lower case
    and has no whitespace at either end. *)
Theorem standardized_name_is_clean (s : string) :
  let n := standardize_template_names s in
  ~ In " "%char (chars n)
  /\ Str.lower n = n
  /\ Str.strip n = n.
Proof.
  intros n. subst n. rewrite standardize_as_map. repeat split.
  - rewrite chars_map, in_map_iff. intros (c & E & _).
    exact (normal_char_no_space c E).
  - unfold Str.lower. rewrite map_map_chars.
    apply map_ext_chars, normal_char_lower.
  - unfold Str.strip. apply (strip_map Str.isspace _ normal_char_keeps_space).
Qed.

Lemma fold_union_size (g : string -> string) (l : list string)
    (acc : gset string) :
  (size (fold_left (fun names t => names ∪ {[ g t ]}) l acc)
   <= size acc + length l)%nat.
Proof.
  revert acc. induction l as [|t l IH]; intros acc; cbn [fold_left length];
    [lia|].
  etransitivity; [apply IH|].
  rewrite size_union_alt.
  assert (size ({[ g t ]} ∖ acc : gset string) <= 1)%nat.
  { etransitivity; [apply (subseteq_size _ {[ g t ]})|].
    - intros x Hx. apply elem_of_difference in Hx. tauto.
    - now rewrite size_singleton. }
  lia.
Qed.

(** X2: every name [build_template_list] returns is its own
    normalisation, so the test of line 126 compares normalised names
    with normalised names; the set always holds the name of the page the
    API answered with, and has at most one name more than that page has
    redirects. *)
Theorem build_template_list_names_are_normalised
    (session_get : string -> string -> api_page) (lang main : string) :
  let result := session_get lang main in
  let names := build_template_list session_get lang main in
  (forall x : string, x ∈ names -> standardize_template_names x = x)
  /\ standardize_template_names
       (Str.slice_from (Str.find ":" (title result) + 1) (title result))
     ∈ names
  /\ (size names <= 1 + length (default [] (redirects result)))%nat.
Proof.
  intros result names. subst names. unfold build_template_list. fold result.
  repeat split.
  - intros x.
    rewrite (fold_union_elem
               (fun t => standardize_template_names
                           (Str.slice_from (Str.find ":" t + 1) t))).
    intros [H | (t & _ & ->)]; [now apply not_elem_of_empty in H|].
    apply standardize_twice.
  - apply (fold_union_elem
             (fun t => standardize_template_names
                         (Str.slice_from (Str.find ":" t + 1) t))).
    right. exists (title result). split; [now left | reflexivity].
  - etransitivity;
      [apply (fold_union_size
                (fun t => standardize_template_names
                            (Str.slice_from (Str.find ":" t + 1) t)))|].
    rewrite size_empty. cbn [length]. lia.
Qed.

Lemma fold_append_all {A} (l acc : list A) :
  fold_left (fun names t => (names ++ [t])%list) l acc = (acc ++ l)%list.
Proof.
  revert acc. induction l as [|t l IH]; intros acc; cbn [fold_left].
  - now rewrite app_nil_r.
  - rewrite IH, <- app_assoc. reflexivity.
Qed.

(** X3: [get_templates_in_category] returns the titles of the answer as
    they came, in their order, repeated ones included and none
    normalised. *)
Theorem get_templates_in_category_keeps_titles
    (categorymembers : string -> string -> list string)
    (lang category_name : string) :
  get_templates_in_category categorymembers lang category_name
  = categorymembers lang category_name.
Proof. unfold get_templates_in_category. apply fold_append_all. Qed.

(** ** [coord] looks at every parameter *)

Lemma coord_true_iff (n : string) (ps : list Param.t) :
  coord (Template.mk n ps) = Ok true <-> Exists looks_like_position ps.
Proof.
  unfold coord. cbn [Template.params].
  destruct (coord_loop_spec ps) as [[-> H] | [-> H]]; split; auto;
    [discriminate | contradiction].
Qed.

Lemma coord_false_iff (n : string) (ps : list Param.t) :
  coord (Template.mk n ps) = Ok false <-> ~ Exists looks_like_position ps.
Proof.
  unfold coord. cbn [Template.params].
  destruct (coord_loop_spec ps) as [[-> H] | [-> H]]; split; auto;
    [discriminate | contradiction].
Qed.

(** X4: the answer of [coord] does not depend on the name of the
    template nor on the order of the parameters, and on two lists of
    parameters put together it is true exactly when it is true on one of
    them: the early [return] of the loop hides no parameter. *)
Theorem coord_is_any_over_parameters :
  (forall (n m : string) (ps qs : list Param.t),
     Permutation ps qs ->
     coord (Template.mk n ps) = coord (Template.mk m qs))
  /\ (forall (n : string) (ps qs : list Param.t),
        coord (Template.mk n (ps ++ qs)) = Ok true
        <-> coord (Template.mk n ps) = Ok true
            \/ coord (Template.mk n qs) = Ok true)
  /\ (forall (n : string) (ps qs : list Param.t),
        coord (Template.mk n (ps ++ qs)) = Ok false
        <-> coord (Template.mk n ps) = Ok false
            /\ coord (Template.mk n qs) = Ok false).
Proof.
  split; [|split].
  - intros n m ps qs H. unfold coord. cbn [Template.params].
    destruct (coord_loop_spec ps) as [[-> P] | [-> P]];
      destruct (coord_loop_spec qs) as [[-> Q] | [-> Q]]; try reflexivity;
      exfalso.
    + apply Q. now rewrite <- H.
    + apply P. now rewrite H.
  - intros n ps qs. rewrite !coord_true_iff. apply Exists_app.
  - intros n ps qs. rewrite !coord_false_iff, Exists_app. tauto.
Qed.

(** [coord] on a permuted invocation. *)
Lemma coord_on_swapped_parameters :
  coord (Template.mk "Coord" [Param.mk "1" "51.5"; Param.mk "name" "x"])
  = coord (Template.mk "coord" [Param.mk "name" "x"; Param.mk "1" "51.5"]).
Proof.
  apply (proj1 coord_is_any_over_parameters). apply perm_swap.
Defined.

(** ** What one invocation changes *)

Section Effects.

Variable sg : string -> string -> api_page.
Variable cm : string -> string -> list string.
Variable ft : option string -> list Template.t.

(** One invocation against one family: the counters of the family move
    as its predicate says, and nothing else of the state that outlives
    the revision moves. *)
Lemma check_family_effect (t : Template.t) (t_name f : string) (s : state) :
  let s' := final (check_family cm t t_name f s) in
  same_run_totals s s'
  /\ Var.template_names s' = Var.template_names s
  /\ Var.i s' = Var.i s
  /\ Var.stdout s' = Var.stdout s
  /\ Var.fout s' = Var.fout s
  /\ (Var.wikidata_usage s' = Var.wikidata_usage s
      \/ exists (u : usage) (fam : family) (b : bool),
           dict_get f (Var.wikidata_usage s) = Some u
           /\ dict_get f (main_templates cm) = Some fam
           /\ func fam t = Ok b
           /\ Var.wikidata_usage s'
              = dict_set f (if b then mkUsage (tracking u + 1) (transclusion u)
                            else mkUsage (tracking u) (transclusion u + 1))
                  (Var.wikidata_usage s)).
Proof.
  intros s'. subst s'. unfold check_family, dict_getitem.
  destruct (dict_get f (Var.template_names s)) as [known|];
    [|repeat split; now left].
  cbn [eval]. destruct (bool_decide (t_name ∈ known));
    [|repeat split; now left].
  destruct (dict_get f (main_templates cm)) as [fam|] eqn:F;
    [|repeat split; now left].
  cbn [mbind result_bind]. destruct (func fam t) as [b|e] eqn:B;
    [|repeat split; now left].
  cbn [eval]. destruct (dict_get f (Var.wikidata_usage s)) as [u|] eqn:E;
    [|repeat split; now left].
  cbn [eval].
  assert (forall x y : state,
            (if b then Done x else Done y) = Done (if b then x else y)) as D
    by (intros; now destruct b).
  rewrite D. cbn [final].
  destruct b; state_simpl; repeat split; right; exists u, fam;
    [exists true | exists false]; auto.
Qed.

(** A property of the counters kept by every invocation is kept by the
    scan. *)
Lemma scan_keeps_usage_property (Q : dict usage -> Prop) :
  (forall t t_name f,
     preserves (fun s => Q (Var.wikidata_usage s)) (check_family cm t t_name f)) ->
  forall dump, preserves (fun s => Q (Var.wikidata_usage s)) (scan cm ft dump).
Proof.
  intros H dump s Hs. unfold scan.
  apply (preserves_for_each (fun s => Q (Var.wikidata_usage s))); [|exact Hs].
  intros [i page] s1 H1. unfold scan_page.
  apply (preserves_and_then (fun s => Q (Var.wikidata_usage s))).
  - destruct (_ && _)%bool; [|exact H1].
    apply (preserves_for_each (fun s => Q (Var.wikidata_usage s)));
      [|exact H1].
    intros revision s2 H2. unfold scan_revision.
    apply (preserves_and_then (fun s => Q (Var.wikidata_usage s))).
    + apply (preserves_for_each (fun s => Q (Var.wikidata_usage s)));
        [|exact H2].
      intros t s3 H3. unfold check_template.
      apply (preserves_for_each (fun s => Q (Var.wikidata_usage s)));
        [|exact H3].
      intros f. apply H.
    + intros s3 H3.
      apply (preserves_eval (fun s => Q (Var.wikidata_usage s))); [exact H3|].
      intros [] _; [|exact H3].
      apply (preserves_eval (fun s => Q (Var.wikidata_usage s))); [exact H3|].
      intros [] _; exact H3.
  - intros s2 H2.
    destruct (progress_same_counts s2 i s2 (same_counts_refl s2)) as (-> & _).
    exact H2.
Qed.

Lemma report_keeps_usage (s : state) :
  Var.wikidata_usage (final (report s)) = Var.wikidata_usage s.
Proof.
  unfold report.
  apply (preserves_and_then
           (fun s' => Var.wikidata_usage s' = Var.wikidata_usage s)).
  - apply (preserves_for_each
             (fun s' => Var.wikidata_usage s' = Var.wikidata_usage s));
      [|reflexivity].
    intros w s1 H1. unfold report_row.
    apply (preserves_and_then
             (fun s' => Var.wikidata_usage s' = Var.wikidata_usage s)).
    + destruct (status_entry_same_counts s1 w s1 (same_counts_refl s1))
        as (-> & _).
      exact H1.
    + intros s2 H2.
      apply (preserves_eval
               (fun s' => Var.wikidata_usage s' = Var.wikidata_usage s));
        [exact H2|].
      intros u _. exact H2.
  - intros s1 H1.
    destruct (print_stats_same_counts s1 s1 (same_counts_refl s1)) as (-> & _).
    exact H1.
Qed.

Lemma check_family_keeps_bd_transclusion (c : option Z) (t : Template.t)
    (t_name f : string) :
  preserves (fun s => transclusion <$> dict_get "bd" (Var.wikidata_usage s) = c)
    (check_family cm t t_name f).
Proof.
  intros s H.
  destruct (check_family_effect t t_name f s)
    as (_ & _ & _ & _ & _ & [-> | (u & fam & b & U & F & B & ->)]);
    [exact H|].
  destruct (String.eqb_spec f "bd") as [->|N].
  - rewrite dict_get_set. rewrite U in H.
    injection F as <-. cbn in B. injection B as <-. exact H.
  - rewrite dict_get_set_other by congruence. exact H.
Qed.

(** X5: no scan ever moves the transclusion counter of the birth-date
    family, whatever the dump and the name sets; after a whole run on
    the English wiki, however it ends, that counter is 0. *)
Theorem birth_dates_never_count_as_transclusion :
  (forall (dump : list Page.t) (s : state),
     transclusion_of "bd" (final (scan cm ft dump s)) = transclusion_of "bd" s)
  /\ (forall dump : list Page.t,
        transclusion_of "bd" (final (main sg cm ft "en" dump)) = Some 0).
Proof.
  assert (forall (dump : list Page.t) (s : state),
            transclusion_of "bd" (final (scan cm ft dump s))
            = transclusion_of "bd" s) as Scan.
  { intros dump s. unfold transclusion_of.
    apply (scan_keeps_usage_property
             (fun d => transclusion <$> dict_get "bd" d
                       = transclusion <$> dict_get "bd" (Var.wikidata_usage s)));
      [|reflexivity].
    intros t t_name f. apply check_family_keeps_bd_transclusion. }
  split; [exact Scan|].
  intros dump. unfold main.
  destruct (setup_en sg cm initial) as (k1 & k2 & k3 & k4 & k5 & ->).
  cbn [and_then]. set (s0 := set_stdout _ _).
  assert (transclusion_of "bd" s0 = Some 0) as H0 by reflexivity.
  rewrite <- (Scan dump s0) in H0.
  destruct (scan cm ft dump s0) as [s1 | e s1]; cbn [and_then final] in *;
    [|exact H0].
  unfold transclusion_of. now rewrite report_keeps_usage.
Qed.

(** X6: for a language other than [en], [main] stops in the set-up of
    the first family on the lookup [main_templates[t][args.lang]]: with
    a [KeyError], or with a [TypeError] when the language is the other
    key [func]; nothing is printed and no file is written. *)
Theorem main_other_language_fails_in_setup (lang : string)
    (dump : list Page.t) :
  lang <> "en" ->
  exists s,
    main sg cm ft lang dump
    = Abort (if String.eqb lang "func" then TypeError else KeyError) s
    /\ Var.stdout s = [] /\ Var.fout s = None
    /\ dict_keys (Var.wikidata_usage s) = ["cd"].
Proof.
  intros N. unfold main, setup.
  cbn [dict_keys main_templates List.map fst for_each].
  unfold setup_family at 1. unfold dict_getitem at 1.
  cbn [dict_get String.eqb Ascii.eqb Bool.eqb mbind result_bind].
  unfold seeds.
  destruct (String.eqb_spec lang "en") as [E|_]; [contradiction|].
  destruct (String.eqb lang "func"); cbn [eval and_then];
    eexists; (split; [reflexivity|]); repeat split.
Qed.

End Effects.

(** X6 on the French wiki. *)
Lemma main_on_french_wiki_fails_in_setup :
  exists s,
    main Demo.session_get Demo.categorymembers Wikitext.filter_templates
      "fr" Demo.three_pages = Abort KeyError s
    /\ Var.fout s = None.
Proof.
  destruct (main_other_language_fails_in_setup
              Demo.session_get Demo.categorymembers Wikitext.filter_templates
              "fr" Demo.three_pages) as (s & E & _ & F & _);
    [discriminate|].
  exists s. split; [exact E | exact F].
Defined.

(** ** The name sets after the set-up *)

Section Names.

Variable sg : string -> string -> api_page.
Variable cm : string -> string -> list string.

Lemma fold_union_build (lang : string) (seeds : list string)
    (acc : gset string) (x : string) :
  x ∈ fold_left (fun known t_name => known ∪ build_template_list sg lang t_name)
        seeds acc
  <-> x ∈ acc \/ exists seed, In seed seeds
                             /\ x ∈ build_template_list sg lang seed.
Proof.
  revert acc. induction seeds as [|t l IH]; intros acc; cbn [fold_left].
  - split; [tauto | intros [H | (t & [] & _)]; exact H].
  - rewrite IH, elem_of_union. split.
    + intros [[H | H] | (t' & H & H')]; eauto.
      * right. exists t. split; [now left | exact H].
      * right. exists t'. split; [now right | exact H'].
    + intros [H | (t' & [<- | H] & H')]; eauto.
Qed.

Lemma seed_names_elem (lang : string) (seeds : list string) (x : string) :
  x ∈ seed_names sg lang seeds
  <-> exists seed, In seed seeds /\ x ∈ build_template_list sg lang seed.
Proof.
  unfold seed_names. rewrite fold_union_build. split; [|tauto].
  intros [H | H]; [now apply not_elem_of_empty in H | exact H].
Qed.

Lemma setup_seeds_exact (lang t : string) (names : list string) (s : state)
    (known : gset string) :
  dict_get t (Var.template_names s) = Some known ->
  for_each names
    (fun t_name s =>
       eval (dict_getitem t (Var.template_names s)) s
         (fun known : gset string =>
            Done (set_template_names
                    (dict_set t (known ∪ build_template_list sg lang t_name)
                       (Var.template_names s)) s))) s
  = Done (set_template_names
            (dict_set t
               (fold_left
                  (fun known t_name =>
                     known ∪ build_template_list sg lang t_name) names known)
               (Var.template_names s)) s).
Proof.
  revert s known. induction names as [|n names IH]; intros s known H;
    cbn [for_each fold_left].
  - rewrite (dict_set_same _ _ _ H). now destruct s.
  - unfold dict_getitem at 1. rewrite H. cbn [eval and_then].
    rewrite (IH _ (known ∪ build_template_list sg lang n))
      by (state_simpl; apply dict_get_set).
    state_simpl. now rewrite dict_set_set.
Qed.

Lemma setup_family_en_exact (t : string) (fam : family) (s : state) :
  dict_get t (main_templates cm) = Some fam ->
  setup_family sg cm "en" t s
  = Done (set_template_names
            (dict_set t (seed_names sg "en" (en fam)) (Var.template_names s))
            (set_wikidata_usage
               (dict_set t (mkUsage 0 0) (Var.wikidata_usage s)) s)).
Proof.
  intros H. unfold setup_family, dict_getitem. rewrite H.
  cbn [mbind result_bind seeds String.eqb Ascii.eqb Bool.eqb eval].
  rewrite (setup_seeds_exact "en" t (en fam) _ ∅)
    by (state_simpl; apply dict_get_set).
  state_simpl. now rewrite dict_set_set.
Qed.

Lemma dict_get_In {V} (k : string) (v : V) (d : dict V) :
  dict_get k d = Some v -> In (k, v) d.
Proof.
  induction d as [|[k' w] d IH]; cbn; [discriminate|].
  destruct (String.eqb_spec k' k) as [->|N].
  - intros [= ->]. now left.
  - intros H. right. auto.
Qed.

(** X7: on the English wiki the set-up always completes; it leaves
    every counter at 0, the families as the keys of the name sets in the
    order of [main_templates], for each family exactly the names that
    [build_template_list] returns for one of its seed titles, one line
    printed per family with the size of its set, and no file. *)
Theorem setup_gathers_the_names_of_every_seed (s : state) :
  exists s',
    setup sg cm "en" s = Done s'
    /\ Var.wikidata_usage s' = no_usage
    /\ dict_keys (Var.template_names s') = families
    /\ (forall (f : string) (fam : family),
          dict_get f (main_templates cm) = Some fam ->
          exists known,
            dict_get f (Var.template_names s') = Some known
            /\ forall x, x ∈ known
                        <-> exists seed, In seed (en fam)
                              /\ x ∈ build_template_list sg "en" seed)
    /\ Var.stdout s'
       = (Var.stdout s
          ++ List.map (fun fk => NamesLine (fst fk) (Z.of_nat (size (snd fk))))
               (Var.template_names s'))%list
    /\ Var.fout s' = Var.fout s.
Proof.
  unfold setup. cbn [dict_keys main_templates List.map fst for_each].
  rewrite (setup_family_en_exact "cd" _ _ eq_refl). cbn [and_then]. state_simpl.
  rewrite (setup_family_en_exact "ac" _ _ eq_refl). cbn [and_then]. state_simpl.
  rewrite (setup_family_en_exact "tb" _ _ eq_refl). cbn [and_then]. state_simpl.
  rewrite (setup_family_en_exact "bd" _ _ eq_refl). cbn [and_then]. state_simpl.
  rewrite (setup_family_en_exact "el" _ _ eq_refl). cbn [and_then]. state_simpl.
  unfold print_names, dict_getitem.
  repeat (state_simpl;
          cbn [dict_set dict_get String.eqb Ascii.eqb Bool.eqb eval and_then
               dict_keys List.map fst snd for_each en]).
  eexists. split; [reflexivity|]. state_simpl.
  split; [reflexivity|]. split; [reflexivity|]. split.
  - intros f fam H. apply dict_get_In in H.
    destruct H as [H | [H | [H | [H | [H | []]]]]]; injection H as <- <-;
      (eexists; split; [reflexivity|]); intros x; apply seed_names_elem.
  - split; [|reflexivity]. cbn [List.map fst snd].
    now rewrite <- !app_assoc.
Qed.

End Names.

(** ** The order of the totals *)

Section Totals.

Variable cm : string -> string -> list string.
Variable ft : option string -> list Template.t.

Lemma grows_refl (n : nat) (s : state) : grows n s s.
Proof. unfold grows. repeat split; lia. Qed.

Lemma grows_trans (a b : nat) (s1 s2 s3 : state) :
  grows a s1 s2 -> grows b s2 s3 -> grows (a + b) s1 s3.
Proof. unfold grows. intros (?&?&?&?) (?&?&?&?). repeat split; lia. Qed.

Lemma check_family_same_totals (s0 : state) (t : Template.t)
    (t_name f : string) :
  preserves (same_run_totals s0) (check_family cm t t_name f).
Proof.
  intros s (E & P & A).
  destruct (check_family_effect cm t t_name f s) as ((E' & P' & A') & _).
  repeat split; congruence.
Qed.

Lemma scan_revision_grows (revision : Revision.t) (s : state) :
  grows 1 s (final (scan_revision cm ft revision s)).
Proof.
  unfold scan_revision.
  set (s0 := set_tracking_only _ _).
  assert (same_run_totals s (final (for_each
            (ft (Revision.text revision)) (check_template cm) s0))) as H.
  { apply (preserves_for_each (same_run_totals s)); [|repeat split].
    intros t s1 H1. unfold check_template.
    apply (preserves_for_each (same_run_totals s)); [|exact H1].
    intros f. apply check_family_same_totals. }
  destruct (for_each _ _ s0) as [s1 | e s1]; cbn [and_then final] in *;
    destruct H as (E & P & A).
  - destruct (Var.wbc s1) as [[]|]; cbn [local eval final];
      [|unfold grows; repeat split; lia..].
    state_simpl.
    destruct (Var.tracking_only s1) as [[]|]; cbn [local eval negb final];
      unfold grows; state_simpl; repeat split; lia.
  - unfold grows. repeat split; lia.
Qed.

Lemma revisions_grow (revisions : list Revision.t) (s : state) :
  grows (length revisions) s
    (final (for_each revisions (scan_revision cm ft) s)).
Proof.
  revert s. induction revisions as [|r l IH]; intros s;
    cbn [for_each length]; [apply grows_refl|].
  pose proof (scan_revision_grows r s) as H.
  destruct (scan_revision cm ft r s) as [s1 | e s1]; cbn [and_then final] in *.
  - exact (grows_trans 1 (length l) s s1 _ H (IH s1)).
  - exact (grows_trans 1 (length l) s s1 s1 H (grows_refl _ s1)).
Qed.

(** One page: [evaluated] moves by one for an evaluated page, and the
    two other totals by no more than the page has revisions. *)
Lemma scan_page_totals (i : Z) (page : Page.t) (s : state) :
  let s' := final (scan_page cm ft (i, page) s) in
  let e := if evaluable page then 1 else 0 in
  let r := if evaluable page
           then Z.of_nat (length (Page.revisions page)) else 0 in
  Var.evaluated s' = Var.evaluated s + e
  /\ 0 <= Var.actual_wbc s' - Var.actual_wbc s
  /\ Var.actual_wbc s' - Var.actual_wbc s
     <= Var.prob_wbc s' - Var.prob_wbc s
  /\ Var.prob_wbc s' - Var.prob_wbc s <= r.
Proof.
  intros s' e r. subst s' e r. unfold scan_page. fold (evaluable page).
  set (P := fun s' : state =>
    Var.evaluated s' = Var.evaluated s + (if evaluable page then 1 else 0)
    /\ 0 <= Var.actual_wbc s' - Var.actual_wbc s
    /\ Var.actual_wbc s' - Var.actual_wbc s
       <= Var.prob_wbc s' - Var.prob_wbc s
    /\ Var.prob_wbc s' - Var.prob_wbc s
       <= (if evaluable page
           then Z.of_nat (length (Page.revisions page)) else 0)).
  apply (preserves_and_then P).
  - unfold P. destruct (evaluable page).
    + set (s0 := set_evaluated _ _).
      destruct (revisions_grow (Page.revisions page) s0) as (E & A & B & C).
      assert (Var.evaluated s0 = Var.evaluated s + 1
              /\ Var.prob_wbc s0 = Var.prob_wbc s
              /\ Var.actual_wbc s0 = Var.actual_wbc s) as (X & Y & Z)
        by (repeat split).
      repeat split; lia.
    + cbn [final]. state_simpl. repeat split; lia.
  - intros s1 H1.
    destruct (progress_same_counts s1 i s1 (same_counts_refl s1))
      as (_ & _ & E & Pr & A & _).
    unfold P in *. rewrite E, Pr, A. exact H1.
Qed.

Lemma evaluable_count_cons (page : Page.t) (pages : list Page.t) :
  evaluable_count (page :: pages)
  = (if evaluable page then 1 else 0) + evaluable_count pages.
Proof.
  unfold evaluable_count. cbn [List.filter].
  destruct (evaluable page); cbn [length]; lia.
Qed.

Lemma evaluable_revisions_cons (page : Page.t) (pages : list Page.t) :
  evaluable_revisions (page :: pages)
  = (if evaluable page then Z.of_nat (length (Page.revisions page)) else 0)
    + evaluable_revisions pages.
Proof.
  unfold evaluable_revisions. cbn [List.filter].
  destruct (evaluable page); cbn [flat_map]; rewrite ?length_app; lia.
Qed.

Lemma evaluable_count_bounds (pages : list Page.t) :
  0 <= evaluable_count pages <= Z.of_nat (length pages).
Proof.
  induction pages as [|p l IH]; [unfold evaluable_count; cbn; lia|].
  rewrite evaluable_count_cons. cbn [length]. destruct (evaluable p); lia.
Qed.

Lemma evaluable_revisions_nonneg (pages : list Page.t) :
  0 <= evaluable_revisions pages.
Proof. unfold evaluable_revisions. lia. Qed.

Lemma scan_from_totals (pages : list Page.t) (k : Z) (s : state) :
  let r := for_each (enumerate k pages) (scan_page cm ft) s in
  Var.evaluated s <= Var.evaluated (final r)
  /\ Var.evaluated (final r) <= Var.evaluated s + evaluable_count pages
  /\ 0 <= Var.actual_wbc (final r) - Var.actual_wbc s
  /\ Var.actual_wbc (final r) - Var.actual_wbc s
     <= Var.prob_wbc (final r) - Var.prob_wbc s
  /\ Var.prob_wbc (final r) - Var.prob_wbc s <= evaluable_revisions pages
  /\ (Forall (fun page => (length (Page.revisions page) <= 1)%nat) pages ->
      Var.prob_wbc (final r) - Var.prob_wbc s
      <= Var.evaluated (final r) - Var.evaluated s)
  /\ (forall s', r = Done s' ->
      Var.evaluated s' = Var.evaluated s + evaluable_count pages).
Proof.
  revert k s. induction pages as [|page pages IH]; intros k s r; subst r;
    cbn [enumerate for_each].
  - cbn [final]. unfold evaluable_count, evaluable_revisions. cbn.
    repeat split; try lia. intros s' [= <-]. lia.
  - pose proof (scan_page_totals k page s) as H. cbv zeta in H.
    destruct H as (E & A & B & C).
    pose proof (evaluable_count_bounds pages) as Hc.
    pose proof (evaluable_revisions_nonneg pages) as Hr.
    rewrite evaluable_count_cons, evaluable_revisions_cons.
    destruct (scan_page cm ft (k, page) s) as [s1 | e s1];
      cbn [and_then final] in *.
    + destruct (IH (k + 1) s1) as (E1 & E2 & A1 & B1 & C1 & D1 & F1).
      repeat split; try (destruct (evaluable page); lia).
      * intros H. inversion H as [|? ? H1 H2]; subst. specialize (D1 H2).
        destruct (evaluable page); lia.
      * intros s' H. rewrite (F1 s' H). destruct (evaluable page); lia.
    + repeat split; try (destruct (evaluable page); lia).
      * intros H. inversion H as [|? ? H1 H2]; subst.
        destruct (evaluable page); lia.
      * discriminate.
Qed.

(** X8: at any point where a scan stops, completed or not, the totals
    satisfy [0 <= actual_wbc <= prob_wbc], so the tracking column
    [prob_wbc - actual_wbc] of the report is never negative;
    [prob_wbc] is at most the number of revisions of the evaluated
    pages (and at most [evaluated] when no page has two revisions), and
    [evaluated] is at most the number of articles that are no
    redirects, which it equals when the scan completes. *)
Theorem scan_totals_stay_ordered (dump : list Page.t) (s : state) :
  let r := scan cm ft dump s in
  0 <= Var.actual_wbc (final r) <= Var.prob_wbc (final r)
  /\ Var.prob_wbc (final r) <= evaluable_revisions dump
  /\ 0 <= Var.evaluated (final r) <= evaluable_count dump
  /\ evaluable_count dump <= Z.of_nat (length dump)
  /\ (Forall (fun page => (length (Page.revisions page) <= 1)%nat) dump ->
      Var.prob_wbc (final r) <= Var.evaluated (final r))
  /\ (forall s', r = Done s' -> Var.evaluated s' = evaluable_count dump).
Proof.
  intros r. subst r. unfold scan.
  set (s0 := set_actual_wbc _ _).
  destruct (scan_from_totals dump 1 s0) as (E1 & E2 & A & B & C & D & F).
  pose proof (evaluable_count_bounds dump) as Hc.
  assert (Var.evaluated s0 = 0 /\ Var.prob_wbc s0 = 0
          /\ Var.actual_wbc s0 = 0) as (X & Y & Z) by (repeat split).
  repeat split; try lia.
  - intros H. specialize (D H). lia.
  - intros s' H. rewrite (F s' H). lia.
Qed.

End Totals.

(** X8 on the three pages of the small wiki. *)
Lemma three_pages_totals_ordered :
  let r := scan Demo.categorymembers Wikitext.filter_templates
             Demo.three_pages Demo.start in
  Var.prob_wbc (final r) <= Var.evaluated (final r).
Proof.
  apply (scan_totals_stay_ordered Demo.categorymembers
           Wikitext.filter_templates Demo.three_pages Demo.start).
  repeat constructor.
Defined.

(** ** How a run on the English wiki can end *)

Lemma boundary_step (k : Z) :
  1 <= k -> k / 10000 - (k - 1) / 10000 = if k mod 10000 =? 0 then 1 else 0.
Proof.
  intros K.
  pose proof (Z.div_mod k 10000 ltac:(lia)) as H1.
  pose proof (Z.mod_pos_bound k 10000 ltac:(lia)) as B1.
  pose proof (Z.div_mod (k - 1) 10000 ltac:(lia)) as H2.
  pose proof (Z.mod_pos_bound (k - 1) 10000 ltac:(lia)) as B2.
  destruct (Z.eqb_spec (k mod 10000) 0) as [E|N]; lia.
Qed.

Lemma boundary_is_far (j : Z) : 1 <= j -> j mod 10000 = 0 -> 10000 <= j.
Proof.
  intros J M. pose proof (Z.div_mod j 10000 ltac:(lia)) as H1. lia.
Qed.

Lemma stats_printed_print (line : printed) (s : state) :
  stats_printed (print line s)
  = stats_printed s + (if is_stats line then 1 else 0).
Proof.
  unfold stats_printed. state_simpl. rewrite List.filter_app, length_app.
  cbn [List.filter]. destruct (is_stats line); cbn [length]; lia.
Qed.

Section Outcomes.

Variable sg : string -> string -> api_page.
Variable cm : string -> string -> list string.
Variable ft : option string -> list Template.t.

Lemma print_stats_ok (s : state) (j : Z) :
  Var.i s = Some j -> Var.evaluated s <> 0 ->
  exists line, print_stats s = Done (print line s) /\ is_stats line = true.
Proof.
  intros I E. unfold print_stats, truediv. rewrite I. cbn [local eval].
  destruct (Z.eqb_spec (Var.evaluated s) 0); [contradiction|].
  cbn [eval]. eexists. split; reflexivity.
Qed.

Lemma progress_prints (i j : Z) (s : state) :
  shaped s -> Var.i s = Some j -> Var.evaluated s <> 0 ->
  (i mod 10000 =? 0) = true ->
  exists st line,
    progress i s = Done (print line (set_status st s))
    /\ is_stats line = true.
Proof.
  intros Hs I E M. unfold progress. rewrite M.
  destruct (status_loop_ok (set_status [] s) Hs) as [st ->].
  cbn [and_then].
  destruct (print_stats_ok (set_status st (set_status [] s)) j I E)
    as (line & -> & L).
  exists st, line. split; [reflexivity | exact L].
Qed.

Lemma progress_aborts (i j : Z) (s : state) :
  shaped s -> Var.i s = Some j -> Var.evaluated s = 0 ->
  (i mod 10000 =? 0) = true ->
  exists st, progress i s = Abort ZeroDivisionError (set_status st s).
Proof.
  intros Hs I E M. unfold progress. rewrite M.
  destruct (status_loop_ok (set_status [] s) Hs) as [st ->].
  cbn [and_then]. exists st.
  now rewrite (print_stats_raises (set_status st (set_status [] s)) j I E).
Qed.

Lemma revisions_done (revisions : list Revision.t) (s : state) :
  shaped s ->
  exists s',
    for_each revisions (scan_revision cm ft) s = Done s'
    /\ shaped s'
    /\ Var.evaluated s' = Var.evaluated s
    /\ Var.i s' = Var.i s
    /\ Var.stdout s' = Var.stdout s
    /\ Var.fout s' = Var.fout s.
Proof.
  revert s. induction revisions as [|r l IH]; intros s Hs; cbn [for_each].
  - exists s. repeat split; apply Hs.
  - destruct (scan_revision_refines cm ft r s Hs) as (-> & Hs1 & _).
    destruct (close_revision_totals cm (Var.template_names s)
                (ft (Revision.text r)) s) as (_ & _ & E & I & O & F).
    cbn [and_then].
    destruct (IH _ Hs1) as (s' & -> & Hs' & E' & I' & O' & F').
    exists s'. split; [reflexivity|]. split; [exact Hs'|].
    repeat split; congruence.
Qed.

(** One page from a shaped state: it ends in the next state, or in the
    division by zero of its progress line. *)
Lemma scan_page_outcome (i : Z) (page : Page.t) (s : state) :
  shaped s ->
  exists s',
    shaped s'
    /\ Var.evaluated s'
       = Var.evaluated s + (if evaluable page then 1 else 0)
    /\ Var.i s' = Some i
    /\ Var.fout s' = Var.fout s
    /\ ((scan_page cm ft (i, page) s = Done s'
         /\ stats_printed s'
            = stats_printed s + (if i mod 10000 =? 0 then 1 else 0)
         /\ ((i mod 10000 =? 0) = true -> Var.evaluated s' <> 0))
        \/ (scan_page cm ft (i, page) s = Abort ZeroDivisionError s'
            /\ Var.evaluated s' = 0
            /\ (i mod 10000 =? 0) = true)).
Proof.
  intros Hs. unfold scan_page. fold (evaluable page).
  assert (exists s1,
            (if evaluable page
             then for_each (Page.revisions page) (scan_revision cm ft)
                    (set_evaluated (Var.evaluated (set_i (Some i) s) + 1)
                       (set_i (Some i) s))
             else Done (set_i (Some i) s)) = Done s1
            /\ shaped s1
            /\ Var.evaluated s1
               = Var.evaluated s + (if evaluable page then 1 else 0)
            /\ Var.i s1 = Some i
            /\ Var.stdout s1 = Var.stdout s
            /\ Var.fout s1 = Var.fout s) as (s1 & -> & Hs1 & E & I & O & F).
  { destruct (evaluable page).
    - destruct (revisions_done (Page.revisions page)
                  (set_evaluated (Var.evaluated (set_i (Some i) s) + 1)
                     (set_i (Some i) s)) Hs)
        as (s1 & -> & Hs1 & E & I & O & F).
      exists s1. split; [reflexivity|]. split; [exact Hs1|].
      rewrite E, I, O, F. repeat split.
    - exists (set_i (Some i) s). split; [reflexivity|]. split; [exact Hs|].
      state_simpl. repeat split. lia. }
  cbn [and_then].
  destruct (i mod 10000 =? 0) eqn:M.
  - destruct (Z.eq_dec (Var.evaluated s1) 0) as [Z0|NZ].
    + destruct (progress_aborts i i s1 Hs1 I Z0 M) as [st ->].
      exists (set_status st s1). split; [exact Hs1|].
      state_simpl. split; [exact E|]. split; [exact I|]. split; [exact F|].
      right. repeat split. exact Z0.
    + destruct (progress_prints i i s1 Hs1 I NZ M) as (st & line & -> & L).
      exists (print line (set_status st s1)). split; [exact Hs1|].
      state_simpl. split; [exact E|]. split; [exact I|]. split; [exact F|].
      left. split; [reflexivity|]. split; [|intros _; exact NZ].
      rewrite stats_printed_print, L. unfold stats_printed. state_simpl.
      now rewrite O.
  - unfold progress. rewrite M. exists s1. split; [exact Hs1|].
    split; [exact E|]. split; [exact I|]. split; [exact F|].
    left. split; [reflexivity|]. split; [|discriminate].
    unfold stats_printed. rewrite O. lia.
Qed.

Lemma skipped_count_zero (pages : list Page.t) :
  evaluable_count pages = 0
  <-> Forall (fun page => evaluable page = false) pages.
Proof.
  induction pages as [|p l IH]; [split; [constructor | reflexivity]|].
  rewrite evaluable_count_cons.
  pose proof (evaluable_count_bounds l) as B. split.
  - intros H. destruct (evaluable p) eqn:E; [lia|].
    constructor; [exact E | apply IH; lia].
  - intros H. inversion H as [|? ? E H']; subst. rewrite E.
    apply IH in H'. lia.
Qed.

(** The pages from index [k] on, from a shaped state: the scan
    completes, or it stops at a multiple of 10000 before which no page
    was evaluated. *)
Lemma scan_outcome (pages : list Page.t) (k : Z) (s : state) :
  shaped s -> 0 <= Var.evaluated s -> 1 <= k ->
  let n := Z.of_nat (length pages) in
  exists s',
    shaped s' /\ Var.fout s' = Var.fout s
    /\ ((for_each (enumerate k pages) (scan_page cm ft) s = Done s'
         /\ Var.evaluated s' = Var.evaluated s + evaluable_count pages
         /\ Var.i s' = match pages with
                       | [] => Var.i s
                       | _ => Some (k + n - 1)
                       end
         /\ stats_printed s'
            = stats_printed s + ((k + n - 1) / 10000 - (k - 1) / 10000))
        \/ (for_each (enumerate k pages) (scan_page cm ft) s
            = Abort ZeroDivisionError s'
            /\ Var.evaluated s' = 0
            /\ Var.evaluated s = 0
            /\ exists j, Var.i s' = Some j /\ k <= j < k + n
                /\ j mod 10000 = 0
                /\ evaluable_count (firstn (Z.to_nat (j - k + 1)) pages) = 0)).
Proof.
  revert k s. induction pages as [|page pages IH]; intros k s Hs E0 K n;
    subst n; cbn [enumerate for_each length].
  - exists s. split; [exact Hs|]. split; [reflexivity|]. left.
    split; [reflexivity|]. unfold evaluable_count. cbn.
    repeat split; try lia.
    replace (k + Z.of_nat 0 - 1) with (k - 1) by lia. lia.
  - pose proof (evaluable_count_bounds pages) as Bc.
    destruct (scan_page_outcome k page s Hs)
      as (s1 & Hs1 & E1 & I1 & F1 & [(-> & S1 & N1) | (-> & Z1 & M1)]);
      cbn [and_then].
    + destruct (IH (k + 1) s1 Hs1) as (s' & Hs' & F' & H');
        [destruct (evaluable page); lia | lia |].
      exists s'. split; [exact Hs'|]. split; [congruence|].
      destruct H' as [(-> & E' & I' & S') | (-> & Z' & Z1 & j & I' & J & M & C)].
      * left. split; [reflexivity|]. rewrite evaluable_count_cons.
        split; [lia|]. split.
        -- destruct pages as [|p' l']; [rewrite I', I1 | rewrite I'];
             f_equal; cbn [length]; lia.
        -- rewrite S', S1, <- (boundary_step k K).
           replace (k + 1 + Z.of_nat (length pages) - 1)
             with (k + Z.of_nat (S (length pages)) - 1) by lia.
           replace (k + 1 - 1) with k by lia. lia.
      * right. split; [reflexivity|]. split; [exact Z'|].
        assert (evaluable page = false /\ Var.evaluated s = 0) as [Ep Es]
          by (destruct (evaluable page); split; try reflexivity; lia).
        split; [exact Es|].
        exists j. split; [exact I'|]. split; [lia|]. split; [exact M|].
        replace (Z.to_nat (j - k + 1)) with (S (Z.to_nat (j - (k + 1) + 1)))
          by lia.
        cbn [firstn]. rewrite evaluable_count_cons, Ep, C. reflexivity.
    + exists s1. split; [exact Hs1|]. split; [exact F1|]. right.
      split; [reflexivity|]. split; [exact Z1|].
      assert (evaluable page = false /\ Var.evaluated s = 0) as [Ep Es]
        by (destruct (evaluable page); split; try reflexivity; lia).
      split; [exact Es|].
      exists k. split; [exact I1|]. split; [lia|].
      split; [now apply Z.eqb_eq|].
      replace (k - k + 1) with 1 by lia. change (Z.to_nat 1) with 1%nat.
      cbn [firstn].
      rewrite evaluable_count_cons, Ep, firstn_O. reflexivity.
Qed.

End Outcomes.

Section Endings.

Variable sg : string -> string -> api_page.
Variable cm : string -> string -> list string.
Variable ft : option string -> list Template.t.

Lemma skipped_all_seen (pages : list Page.t) :
  Forall (fun page => evaluable page = false) pages ->
  ~ Exists (fun page => evaluable page = true) pages.
Proof.
  rewrite Forall_forall, Exists_exists. intros H (p & Hp & E).
  specialize (H p Hp). congruence.
Qed.

(** The three ways [main] can end on the English wiki. *)
Lemma main_en_cases (dump : list Page.t) :
  let n := Z.of_nat (length dump) in
  exists s,
    (main sg cm ft "en" dump = Done s
     /\ dump <> []
     /\ Var.evaluated s = evaluable_count dump
     /\ 0 < Var.evaluated s
     /\ Var.i s = Some n
     /\ Var.fout s = Some (report_text s)
     /\ stats_printed s = n / 10000 + 1)
    \/ (main sg cm ft "en" dump = Abort ZeroDivisionError s
        /\ dump <> []
        /\ Var.evaluated s = 0
        /\ Forall (fun page => evaluable page = false)
             (firstn (Z.to_nat 10000) dump))
    \/ (main sg cm ft "en" dump = Abort UnboundLocalError s /\ dump = []).
Proof.
  intros n. unfold main.
  destruct (setup_en sg cm initial) as (k1 & k2 & k3 & k4 & k5 & ->).
  cbn [and_then]. set (s0 := set_stdout _ _). unfold scan.
  set (s1 := set_actual_wbc _ _).
  assert (shaped s1) as Hs1 by (split; reflexivity).
  assert (Var.evaluated s1 = 0) as E1 by reflexivity.
  assert (Var.i s1 = None) as I1 by reflexivity.
  assert (stats_printed s1 = 0) as S1 by reflexivity.
  assert (Var.fout s1 = None) as F1 by reflexivity.
  destruct (scan_outcome cm ft dump 1 s1 Hs1) as (s2 & Hs2 & F2 & H);
    [lia | lia |].
  fold n in H.
  destruct H as [(-> & E2 & I2 & S2) | (-> & Z2 & _ & j & I2 & J & M & C)];
    cbn [and_then].
  - destruct (report_steps_full s2 Hs2)
      as (s3 & -> & U3 & E3 & P3 & A3 & I3 & O3 & F3).
    assert (dump = [] \/ (dump <> [] /\ Var.i s2 = Some n)) as [D | [Hne I2']].
    { subst n. destruct dump as [|p l]; [now left | right].
      split; [discriminate|]. rewrite I2. f_equal. lia. }
    + exists s3. right. right. split; [|exact D].
      apply print_stats_unbound. rewrite I3, I2, D. exact I1.
    + assert (Var.i s3 = Some n) as I3' by congruence.
      pose proof (evaluable_count_bounds dump) as B.
      destruct (Z.eq_dec (evaluable_count dump) 0) as [Z0|NZ].
      * exists s3. right. left.
        rewrite (print_stats_raises s3 n I3') by lia.
        split; [reflexivity|]. split; [exact Hne|]. split; [lia|].
        apply Forall_take. now apply skipped_count_zero.
      * destruct (print_stats_ok s3 n I3') as (line & -> & L); [lia|].
        exists (print line s3). left. split; [reflexivity|].
        split; [exact Hne|]. state_simpl.
        split; [lia|]. split; [lia|]. split; [exact I3'|]. split.
        -- rewrite F3. f_equal. symmetry. now apply report_text_same.
        -- rewrite stats_printed_print, L. unfold stats_printed.
           rewrite O3. fold (stats_printed s2). rewrite S2, S1.
           replace (1 + n - 1) with n by lia. replace (1 - 1) with 0 by lia.
           change (0 / 10000) with 0. lia.
  - exists s2. right. left. split; [reflexivity|].
    assert (10000 <= j) as Hj by (apply boundary_is_far; lia).
    split; [intros ->; cbn in n; lia|]. split; [exact Z2|].
    apply skipped_count_zero in C.
    replace (Z.to_nat 10000)
      with (Nat.min (Z.to_nat 10000) (Z.to_nat (j - 1 + 1))) by lia.
    rewrite <- take_take. now apply Forall_take.
Qed.

(** X9: on the English wiki [main] never stops on a missing key, a
    missing parameter or an unreadable number: it completes, or it stops
    on the division by zero of a statistics line, with [evaluated] at 0
    and no evaluated page among the first 10000, or, for the empty
    dump, on the unbound loop variable of the last line. *)
Theorem main_on_english_wiki_ends_in_three_ways (dump : list Page.t) :
  exists s,
    (main sg cm ft "en" dump = Done s /\ dump <> [] /\ 0 < Var.evaluated s)
    \/ (main sg cm ft "en" dump = Abort ZeroDivisionError s
        /\ dump <> []
        /\ Var.evaluated s = 0
        /\ Forall (fun page => evaluable page = false)
             (firstn (Z.to_nat 10000) dump))
    \/ (main sg cm ft "en" dump = Abort UnboundLocalError s /\ dump = []).
Proof.
  destruct (main_en_cases dump) as (s & [H | [H | H]]); exists s.
  - left. tauto.
  - right. left. exact H.
  - right. right. exact H.
Qed.

(** X10: on the English wiki, when one of the first 10000 pages of the
    dump is evaluated, [main] completes: [evaluated] is the number of
    articles that are no redirects, the output file holds the report of
    the final counters, and one statistics line was printed for every
    10000 pages and one more at the end. *)
Theorem main_completes_when_an_article_comes_early (dump : list Page.t) :
  Exists (fun page => evaluable page = true) (firstn (Z.to_nat 10000) dump) ->
  exists s,
    main sg cm ft "en" dump = Done s
    /\ Var.evaluated s = evaluable_count dump
    /\ 0 < Var.evaluated s
    /\ Var.i s = Some (Z.of_nat (length dump))
    /\ Var.fout s = Some (report_text s)
    /\ stats_printed s = Z.of_nat (length dump) / 10000 + 1.
Proof.
  intros Hex.
  destruct (main_en_cases dump) as (s & [H | [H | H]]).
  - exists s. tauto.
  - destruct H as (_ & _ & _ & H). now apply skipped_all_seen in H.
  - destruct H as (_ & ->). rewrite firstn_nil in Hex.
    now apply Exists_nil in Hex.
Qed.

End Endings.

(** X10 on the three pages of the small wiki. *)
Lemma main_completes_on_three_pages :
  exists s, Demo.run_main Demo.three_pages = Done s
            /\ Var.evaluated s = 3 /\ stats_printed s = 1.
Proof.
  destruct (main_completes_when_an_article_comes_early
              Demo.session_get Demo.categorymembers Wikitext.filter_templates
              Demo.three_pages) as (s & E & V & _ & _ & _ & S).
  - apply Exists_cons_hd. reflexivity.
  - exists s. split; [exact E|]. split; [exact V | exact S].
Defined.

(** ** Names are matched after normalisation only *)

Section Matching.

Variable cm : string -> string -> list string.
Variable ft : option string -> list Template.t.

Lemma predicates_ignore_the_name (f : string) (fam : family)
    (n n' : string) (ps : list Param.t) :
  dict_get f (main_templates cm) = Some fam ->
  func fam (Template.mk n ps) = func fam (Template.mk n' ps).
Proof.
  intros H. apply dict_get_In in H.
  destruct H as [H | [H | [H | [H | [H | []]]]]]; injection H as <- <-;
    reflexivity.
Qed.

Lemma for_each_ext {A} (body body' : A -> state -> run) (l : list A)
    (s : state) :
  (forall x s, body x s = body' x s) ->
  for_each l body s = for_each l body' s.
Proof.
  intros H. revert s. induction l as [|a l IH]; intros s; cbn [for_each];
    [reflexivity|].
  rewrite H. destruct (body' a s); cbn [and_then]; [apply IH | reflexivity].
Qed.

(** X11: two invocations with the same parameters whose names have the
    same normalisation, as [Coord], [coord ] and [COORD] have, are
    counted alike by every family: the loop of lines 123-133 ends in the
    same state on both. *)
Theorem invocations_match_by_normalised_name (n n' : string)
    (ps : list Param.t) (s : state) :
  standardize_template_names n = standardize_template_names n' ->
  check_template cm (Template.mk n ps) s
  = check_template cm (Template.mk n' ps) s.
Proof.
  intros H. unfold check_template. cbn [Template.name]. rewrite H.
  apply for_each_ext. intros f s1. unfold check_family.
  destruct (dict_getitem f (Var.template_names s1)) as [known|e];
    [|reflexivity].
  cbn [eval]. destruct (bool_decide _); [|reflexivity].
  unfold dict_getitem at 1 3.
  destruct (dict_get f (main_templates cm)) as [fam|] eqn:F; [|reflexivity].
  cbn [mbind result_bind].
  now rewrite (predicates_ignore_the_name f fam n n' ps F).
Qed.

(** X12: the scan of a dump continues the scan of any of its prefixes:
    a prefix that stops on an exception stops the whole dump in the
    same state, and after a prefix that completes the remaining pages
    are read from the state it reached, numbered on from its length. *)
Theorem scan_continues_its_prefixes (dump dump' : list Page.t) (s : state) :
  (forall e s1, scan cm ft dump s = Abort e s1 ->
                scan cm ft (dump ++ dump') s = Abort e s1)
  /\ (forall s1, scan cm ft dump s = Done s1 ->
                 scan cm ft (dump ++ dump') s
                 = for_each (enumerate (1 + Z.of_nat (length dump)) dump')
                     (scan_page cm ft) s1).
Proof.
  unfold scan. rewrite enumerate_app, for_each_app.
  split; intros; now rewrite H.
Qed.

End Matching.

(** X11 on two spellings of [Coord]. *)
Lemma coord_spellings_count_alike :
  check_template Demo.categorymembers
    (Template.mk "Coord" [Param.mk "1" "51.5"]) Demo.start
  = check_template Demo.categorymembers
      (Template.mk " COORD " [Param.mk "1" "51.5"]) Demo.start.
Proof.
  apply invocations_match_by_normalised_name. reflexivity.
Defined.

(** ** Pages counted and invocations counted *)

Lemma totals_set (f : string) (u v : usage) (d : dict usage) :
  dict_get f d = Some u ->
  total_tracking (dict_set f v d)
  = total_tracking d - tracking u + tracking v
  /\ total_transclusion (dict_set f v d)
     = total_transclusion d - transclusion u + transclusion v.
Proof.
  induction d as [|[k w] d IH]; cbn [dict_get dict_set]; [discriminate|].
  destruct (String.eqb_spec k f) as [->|N].
  - intros [= ->]. unfold total_tracking, total_transclusion. cbn. lia.
  - intros H. destruct (IH H) as [T U].
    unfold total_tracking, total_transclusion in *. cbn in *. lia.
Qed.

Lemma totals_bump (f : string) (b : bool) (u : usage) (d : dict usage) :
  dict_get f d = Some u ->
  total_tracking (bump f b d) = total_tracking d + (if b then 1 else 0)
  /\ total_transclusion (bump f b d)
     = total_transclusion d + (if b then 0 else 1).
Proof.
  intros H. unfold bump. rewrite H.
  destruct (totals_set f u
              (if b then mkUsage (tracking u + 1) (transclusion u)
               else mkUsage (tracking u) (transclusion u + 1)) d H) as [T U].
  rewrite T, U. destruct b; cbn; lia.
Qed.

Lemma counted_refl (s : state) : counted s s.
Proof. unfold counted. cbv zeta. lia. Qed.

Lemma counted_trans (s1 s2 s3 : state) :
  counted s1 s2 -> counted s2 s3 -> counted s1 s3.
Proof. unfold counted. cbv zeta. lia. Qed.

Section Counted.

Variable sg : string -> string -> api_page.
Variable cm : string -> string -> list string.
Variable ft : option string -> list Template.t.

(** The verdicts of the families [fs] on one invocation. *)
Lemma count_families_totals (tn : dict (gset string)) (t : Template.t)
    (fs : list string) (s : state) :
  dict_keys (Var.wikidata_usage s) = families ->
  Forall (fun f => In f families) fs ->
  let s' := fold_left (fun s f => count f (verdict cm tn f t) s) fs s in
  let d := Var.wikidata_usage s in
  let d' := Var.wikidata_usage s' in
  dict_keys d' = families
  /\ total_tracking d <= total_tracking d'
  /\ total_transclusion d <= total_transclusion d'
  /\ (if existsb (fun f => match verdict cm tn f t with
                           | Some _ => true | None => false end) fs
      then 1 else 0)
     <= (total_tracking d' + total_transclusion d')
        - (total_tracking d + total_transclusion d)
  /\ (if existsb (fun f => match verdict cm tn f t with
                           | Some false => true | _ => false end) fs
      then 1 else 0)
     <= total_transclusion d' - total_transclusion d.
Proof.
  intros K F. revert s K. induction F as [|f fs Hf _ IH]; intros s K;
    cbn [fold_left existsb]; cbv zeta.
  - repeat split; [exact K | lia..].
  - destruct (dict_get_key f (Var.wikidata_usage s)) as [u Hu];
      [now rewrite K|].
    assert (dict_keys (Var.wikidata_usage (count f (verdict cm tn f t) s))
            = families) as K1.
    { rewrite usage_count. destruct (verdict cm tn f t);
        [now rewrite shaped_bump | exact K]. }
    specialize (IH _ K1). cbv zeta in IH.
    destruct IH as (K' & T & U & H & X).
    rewrite usage_count in T, U, H, X.
    destruct (verdict cm tn f t) as [b|]; cbn [orb].
    + destruct (totals_bump f b u _ Hu) as [Tb Ub].
      rewrite ?Tb, ?Ub in T, U, H, X.
      split; [exact K'|].
      destruct b;
        destruct (existsb
                    (fun f0 => match verdict cm tn f0 t with
                               | Some _ => true | None => false end) fs);
        destruct (existsb
                    (fun f0 => match verdict cm tn f0 t with
                               | Some false => true | _ => false end) fs);
        cbn [orb]; repeat split; lia.
    + repeat split; assumption.
Qed.

Lemma families_in_families : Forall (fun f => In f families) families.
Proof. apply List.Forall_forall. intros f H. exact H. Qed.

Lemma count_templates_totals (tn : dict (gset string))
    (ts : list Template.t) (s : state) :
  dict_keys (Var.wikidata_usage s) = families ->
  let d := Var.wikidata_usage s in
  let d' := Var.wikidata_usage (count_templates cm tn ts s) in
  total_tracking d <= total_tracking d'
  /\ total_transclusion d <= total_transclusion d'
  /\ (if existsb (hit cm tn) ts then 1 else 0)
     <= (total_tracking d' + total_transclusion d')
        - (total_tracking d + total_transclusion d)
  /\ (if existsb (transcluded cm tn) ts then 1 else 0)
     <= total_transclusion d' - total_transclusion d.
Proof.
  revert s. induction ts as [|t ts IH]; intros s K; cbv zeta.
  - cbn. lia.
  - change (count_templates cm tn (t :: ts) s)
      with (count_templates cm tn ts (count_template cm tn s t)).
    pose proof (count_families_totals tn t families s K families_in_families)
      as H. cbv zeta in H.
    fold (count_template cm tn s t) in H. fold (hit cm tn t) in H.
    fold (transcluded cm tn t) in H.
    destruct H as (K1 & T1 & U1 & H1 & X1).
    specialize (IH _ K1). cbv zeta in IH. destruct IH as (T & U & H & X).
    cbn [existsb].
    destruct (hit cm tn t); destruct (transcluded cm tn t);
      destruct (existsb (hit cm tn) ts);
      destruct (existsb (transcluded cm tn) ts); cbn [orb];
      repeat split; lia.
Qed.

Lemma scan_revision_counted (revision : Revision.t) (s : state) :
  shaped s ->
  exists s', scan_revision cm ft revision s = Done s'
             /\ shaped s' /\ counted s s'.
Proof.
  intros Hs.
  destruct (scan_revision_refines cm ft revision s Hs) as (E & Hs' & _).
  cbv zeta in E, Hs'. eexists. split; [exact E|]. split; [exact Hs'|].
  set (tn := Var.template_names s) in *.
  set (ts := ft (Revision.text revision)) in *.
  destruct (close_revision_totals cm tn ts s) as (P & A & _).
  pose proof (count_templates_totals tn ts (open_revision s) (proj1 Hs)) as H.
  cbv zeta in H. destruct H as (T & U & H & X).
  unfold counted. cbv zeta. rewrite usage_close_revision, P, A.
  change (Var.wikidata_usage (open_revision s))
    with (Var.wikidata_usage s) in *.
  repeat split; lia.
Qed.

Lemma revisions_counted (revisions : list Revision.t) (s : state) :
  shaped s ->
  exists s', for_each revisions (scan_revision cm ft) s = Done s'
             /\ shaped s' /\ counted s s'.
Proof.
  revert s. induction revisions as [|r l IH]; intros s Hs; cbn [for_each].
  - exists s. split; [reflexivity|]. split; [exact Hs | apply counted_refl].
  - destruct (scan_revision_counted r s Hs) as (s1 & -> & Hs1 & C1).
    cbn [and_then]. destruct (IH s1 Hs1) as (s' & -> & Hs' & C').
    exists s'. split; [reflexivity|]. split; [exact Hs'|].
    exact (counted_trans _ _ _ C1 C').
Qed.

Lemma counted_same_counts (s s' : state) : same_counts s s' -> counted s s'.
Proof.
  intros (U & _ & _ & P & A & _). unfold counted. cbv zeta.
  rewrite U, P, A. lia.
Qed.

Lemma scan_page_counted (ip : Z * Page.t) (s : state) :
  shaped s ->
  shaped (final (scan_page cm ft ip s))
  /\ counted s (final (scan_page cm ft ip s)).
Proof.
  intros Hs. split; [now apply scan_page_shaped|].
  destruct ip as [i page]. unfold scan_page.
  apply (preserves_and_then (counted s)).
  - destruct (_ && _)%bool;
      [|cbn [final]; unfold counted; cbv zeta; state_simpl; lia].
    set (s0 := set_evaluated _ _).
    destruct (revisions_counted (Page.revisions page) s0 Hs)
      as (s' & -> & _ & C).
    exact C.
  - intros s1 C1. eapply counted_trans; [exact C1|].
    apply counted_same_counts, progress_same_counts, same_counts_refl.
Qed.

Lemma pages_counted (ips : list (Z * Page.t)) (s : state) :
  shaped s -> counted s (final (for_each ips (scan_page cm ft) s)).
Proof.
  revert s. induction ips as [|ip l IH]; intros s Hs; cbn [for_each];
    [apply counted_refl|].
  destruct (scan_page_counted ip s Hs) as [Hs1 C1].
  destruct (scan_page cm ft ip s) as [s1 | e s1]; cbn [and_then final] in *;
    [|exact C1].
  exact (counted_trans _ _ _ C1 (IH s1 Hs1)).
Qed.

Lemma report_keeps_counts (s : state) :
  let s' := final (report s) in
  Var.wikidata_usage s' = Var.wikidata_usage s
  /\ Var.prob_wbc s' = Var.prob_wbc s
  /\ Var.actual_wbc s' = Var.actual_wbc s.
Proof.
  cbv zeta. unfold report.
  set (P := fun s' : state =>
              Var.wikidata_usage s' = Var.wikidata_usage s
              /\ Var.prob_wbc s' = Var.prob_wbc s
              /\ Var.actual_wbc s' = Var.actual_wbc s).
  apply (preserves_and_then P).
  - apply (preserves_for_each P); [|repeat split].
    intros w s1 H1. unfold report_row.
    apply (preserves_and_then P).
    + destruct (status_entry_same_counts s1 w s1 (same_counts_refl s1))
        as (U & _ & _ & Pr & A & _).
      unfold P in *. now rewrite U, Pr, A.
    + intros s2 H2. apply (preserves_eval P); [exact H2|].
      intros u _. exact H2.
  - intros s1 H1.
    destruct (print_stats_same_counts s1 s1 (same_counts_refl s1))
      as (U & _ & _ & Pr & A & _).
    unfold P in *. now rewrite U, Pr, A.
Qed.

(** X13: from a shaped state, wherever the scan stops, [prob_wbc]
    is at most what the counters grew by together and [actual_wbc] at
    most what the transclusion counters grew by; so at the end of a run
    on the English wiki, however it ends, the pages counted as probable
    are no more than the invocations counted, and the pages counted as
    confirmed no more than the transclusions counted. *)
Theorem pages_counted_are_backed_by_invocations :
  (forall (dump : list Page.t) (s : state),
     shaped s ->
     let d := Var.wikidata_usage s in
     let s' := final (scan cm ft dump s) in
     let d' := Var.wikidata_usage s' in
     Var.prob_wbc s'
     <= (total_tracking d' + total_transclusion d')
        - (total_tracking d + total_transclusion d)
     /\ Var.actual_wbc s' <= total_transclusion d' - total_transclusion d)
  /\ (forall dump : list Page.t,
        let s' := final (main sg cm ft "en" dump) in
        let d' := Var.wikidata_usage s' in
        Var.prob_wbc s' <= total_tracking d' + total_transclusion d'
        /\ Var.actual_wbc s' <= total_transclusion d').
Proof.
  assert (forall (dump : list Page.t) (s : state),
     shaped s ->
     let d := Var.wikidata_usage s in
     let s' := final (scan cm ft dump s) in
     let d' := Var.wikidata_usage s' in
     Var.prob_wbc s'
     <= (total_tracking d' + total_transclusion d')
        - (total_tracking d + total_transclusion d)
     /\ Var.actual_wbc s' <= total_transclusion d' - total_transclusion d)
    as Scan.
  { intros dump s Hs. cbv zeta. unfold scan.
    set (s1 := set_actual_wbc _ _).
    pose proof (pages_counted (enumerate 1 dump) s1 Hs) as C.
    unfold counted in C. cbv zeta in C.
    change (Var.wikidata_usage s1) with (Var.wikidata_usage s) in C.
    change (Var.prob_wbc s1) with 0 in C.
    change (Var.actual_wbc s1) with 0 in C. lia. }
  split; [exact Scan|].
  intros dump. cbv zeta. unfold main.
  destruct (setup_en sg cm initial) as (k1 & k2 & k3 & k4 & k5 & ->).
  cbn [and_then]. set (s0 := set_stdout _ _).
  assert (shaped s0) as Hs0 by (split; reflexivity).
  pose proof (Scan dump s0 Hs0) as H. cbv zeta in H.
  change (total_tracking (Var.wikidata_usage s0)) with 0 in H.
  change (total_transclusion (Var.wikidata_usage s0)) with 0 in H.
  destruct (scan cm ft dump s0) as [s1 | e s1]; cbn [and_then final] in *.
  - pose proof (report_keeps_counts s1) as R. cbv zeta in R.
    destruct R as (-> & -> & ->). lia.
  - lia.
Qed.

End Counted.

(** X13 on the three pages of the small wiki. *)
Lemma three_pages_are_backed_by_invocations :
  Var.prob_wbc
    (final (scan Demo.categorymembers Wikitext.filter_templates
              Demo.three_pages Demo.start))
  <= 3.
Proof.
  pose proof (proj1 (pages_counted_are_backed_by_invocations
                       Demo.session_get Demo.categorymembers
                       Wikitext.filter_templates)
                Demo.three_pages Demo.start
                (conj eq_refl eq_refl)) as H.
  cbv zeta in H. destruct H as [H _].
  etransitivity; [exact H|]. vm_compute. discriminate.
Defined.

(** ** What the predicates do not read *)

(** X14: [ac], [tb], [el] and [bda] read no value: an invocation whose
    values are all replaced, the names and the order of its parameters
    kept, gets the same answers; only [coord] looks at values. *)
Theorem name_predicates_ignore_values (n : string) (ps : list Param.t)
    (g : string -> string) :
  let t := Template.mk n ps in
  let t' := Template.mk n
              (List.map (fun p => Param.mk (Param.name p) (g (Param.value p)))
                 ps) in
  ac t' = ac t /\ tb t' = tb t /\ el t' = el t /\ bda t' = bda t
  /\ coord (Template.mk n [Param.mk "1" "51.5"])
     <> coord (Template.mk n [Param.mk "1" "north"]).
Proof.
  cbv zeta. unfold ac, tb, el, sole_override. cbn [Template.params].
  rewrite length_map.
  destruct ps as [|p [|q l]]; repeat split; try reflexivity; discriminate.
Qed.
